(** * TestMetal: the UV-sphere generator and its FBX writer

    A shallow embedding of [create_sphere_fbx.py] and [generate_sphere.py].
    Both scripts define the same function [generate_sphere] (the two bodies
    differ only in the default of [latitude_segments]) and then serialise the
    mesh it returns: the first into [assets/UnitSphere.fbx], the second onto
    standard output.

    Python integers are [Z].  Python floats are kept behind the interface
    [PyFloat], so that the statements on the shape of the mesh and of the
    document, and on the operations the code applies, hold for any
    arithmetic.  Two instances are given: [Binary64.doubles], the doubles
    Python computes with, on which the behaviour at very large and very
    small radii is evaluated, and [exact_reals], the real numbers, for the
    text of the data lines and the zero radius. *)

From Stdlib Require Import ZArith NArith List String Ascii Bool Lia.
From Stdlib Require Import DecimalString DecimalPos DecimalZ.
From Stdlib Require Import Reals Lra.
From Stdlib Require Floats.
Import ListNotations.

Local Open Scope string_scope.
Local Open Scope list_scope.
Local Open Scope Z_scope.

(** ** The pieces of the Python runtime the scripts use *)

(** The exceptions the modelled statements can raise: a division by a zero
    divisor and a list index out of range. *)
Inductive exn : Type :=
| ZeroDivisionError
| IndexError.

(** The outcome of a computation that may raise. *)
Inductive result (A : Type) : Type :=
| Ok (a : A)
| Raise (e : exn).

Arguments Ok {A} a.
Arguments Raise {A} e.

Definition bind {A B : Type} (m : result A) (k : A -> result B) : result B :=
  match m with
  | Ok a => k a
  | Raise e => Raise e
  end.

Notation "x <- m ;; k" := (bind m (fun x => k))
  (at level 61, m at next level, right associativity).

(** [range(n)]: the integers [0, 1, ..., n-1], none when [n <= 0]. *)
Definition range (n : Z) : list Z := map Z.of_nat (seq 0 (Z.to_nat n)).

(** [range(0, stop, step)] for a positive [step]: [0, step, 2*step, ...] below
    [stop]. *)
Definition range_step (stop step : Z) : list Z :=
  map (fun k => k * step) (range ((stop + step - 1) / step)).

(** [len(l)]. *)
Definition len {A : Type} (l : list A) : Z := Z.of_nat (List.length l).

(** [l[i]]: a negative index counts from the end, an index outside the list
    raises [IndexError]. *)
Definition getitem {A : Type} (l : list A) (i : Z) : result A :=
  let j := if i <? 0 then i + len l else i in
  if j <? 0 then Raise IndexError
  else match nth_error l (Z.to_nat j) with
       | Some a => Ok a
       | None => Raise IndexError
       end.

(** A [for] loop whose body updates the loop state [s] and may raise: the
    first exception ends the loop. *)
Fixpoint for_each {A S : Type} (xs : list A) (body : A -> S -> result S)
  (s : S) : result S :=
  match xs with
  | [] => Ok s
  | x :: xs' =>
      match body x s with
      | Ok s' => for_each xs' body s'
      | Raise e => Raise e
      end
  end.

(** [str(n)] of an integer: its decimal digits, after a minus sign when it is
    negative. *)
Definition str (n : Z) : string := NilZero.string_of_int (Z.to_int n).

(** What the conversion of a float to a fixed number of decimals starts from:
    for a finite float its sign and its magnitude rounded to a whole number of
    millionths; an infinity; or a NaN. *)
Inductive float_repr : Type :=
| Finite (negative : bool) (millionths : N)
| Infinite (negative : bool)
| NotANumber.

(** The float operations the scripts use.  [of_int] is the conversion of an
    integer operand of a mixed operation; [fdiv] is the quotient by a
    divisor that is not zero (Python tests the divisor first, see
    [truediv]); [to_fixed6] is the decimal rounding behind the format
    [.6f].  The one law is that a float above zero is not zero.  The
    integers converted are taken in the range of a float: from about
    [2^1024] on Python raises [OverflowError] instead, which is not
    modelled, and the statements on which calls raise are made for segment
    counts below that (see [small_count]).  [math.sin], [math.cos] and
    [math.sqrt] are applied inside their domains (finite angles, a sum of
    squares). *)
Class PyFloat (F : Type) : Type := {
  of_int : Z -> F;
  math_pi : F;
  fadd : F -> F -> F;
  fmul : F -> F -> F;
  fdiv : F -> F -> F;
  math_sin : F -> F;
  math_cos : F -> F;
  math_sqrt : F -> F;
  is_zero : F -> bool;
  gt_zero : F -> bool;
  to_fixed6 : F -> float_repr;
  gt_zero_not_zero : forall x, gt_zero x = true -> is_zero x = false
}.

Section Floats.

Context {F : Type} {ops : PyFloat F}.

(** [x / y] with a float [x] and a float [y]. *)
Definition truediv (x y : F) : result F :=
  if is_zero y then Raise ZeroDivisionError else Ok (fdiv x y).

(** [x / n] with a float [x] and an integer [n] in the range of a float:
    the integer is converted, and a zero [n] raises. *)
Definition truediv_int (x : F) (n : Z) : result F :=
  if n =? 0 then Raise ZeroDivisionError else Ok (fdiv x (of_int n)).

(** *** The format [.6f] *)

Definition digit (d : N) : ascii := ascii_of_N (48 + d).

(** The [width] low decimal digits of [k], most significant first. *)
Fixpoint fixed_digits (width : nat) (k : N) : string :=
  match width with
  | O => EmptyString
  | S w =>
      (fixed_digits w (k / 10) ++ String (digit (k mod 10)) EmptyString)%string
  end.

Definition sign (negative : bool) : string :=
  if negative then "-" else EmptyString.

(** The text of a float in fixed notation with six decimals. *)
Definition render_6f (r : float_repr) : string :=
  match r with
  | Finite s m =>
      (sign s ++ NilZero.string_of_uint (N.to_uint (m / 1000000)) ++ "."
         ++ fixed_digits 6 (m mod 1000000))%string
  | Infinite s => (sign s ++ "inf")%string
  | NotANumber => "nan"
  end.

(** [f"{x:.6f}"]. *)
Definition format_6f (x : F) : string := render_6f (to_fixed6 x).

(** ** [generate_sphere] (both scripts, lines 4-37) *)

(** Lines 29-35: the six indices one grid cell appends. *)
Definition extend_cell (longitude_segments lat lon : Z) (indices : list Z)
  : list Z :=
  let first := lat * (longitude_segments + 1) + lon in
  let second := first + longitude_segments + 1 in
  (* First triangle *)
  let indices := indices ++ [first; second; first + 1] in
  (* Second triangle *)
  indices ++ [second; second + 1; first + 1].

(** Lines 27-35: the index loops.  They use integer arithmetic only and
    cannot raise. *)
Definition generate_indices (latitude_segments longitude_segments : Z)
  (indices : list Z) : list Z :=
  fold_left
    (fun indices lat =>
       fold_left
         (fun indices lon => extend_cell longitude_segments lat lon indices)
         (range longitude_segments) indices)
    (range latitude_segments) indices.

(** Lines 15-24: the inner vertex loop, for one latitude. *)
Definition generate_row (radius : F) (longitude_segments : Z)
  (sin_theta cos_theta : F) (vertices : list F) : result (list F) :=
  for_each (range (longitude_segments + 1))
    (fun lon vertices =>
       phi <- truediv_int (fmul (of_int (lon * 2)) math_pi) longitude_segments ;;
       let sin_phi := math_sin phi in
       let cos_phi := math_cos phi in
       let x := fmul (fmul radius cos_phi) sin_theta in
       let y := fmul radius cos_theta in
       let z := fmul (fmul radius sin_phi) sin_theta in
       Ok (vertices ++ [x; y; z]))
    vertices.

(** Lines 10-24: the vertex loops. *)
Definition generate_vertices (radius : F)
  (latitude_segments longitude_segments : Z) (vertices : list F)
  : result (list F) :=
  for_each (range (latitude_segments + 1))
    (fun lat vertices =>
       theta <- truediv_int (fmul (of_int lat) math_pi) latitude_segments ;;
       let sin_theta := math_sin theta in
       let cos_theta := math_cos theta in
       generate_row radius longitude_segments sin_theta cos_theta vertices)
    vertices.

Definition generate_sphere (radius : F)
  (latitude_segments longitude_segments : Z) : result (list F * list Z) :=
  let vertices := [] in
  let indices := [] in
  (* Generate vertices *)
  vertices <- generate_vertices radius latitude_segments longitude_segments
                vertices ;;
  (* Generate indices *)
  let indices := generate_indices latitude_segments longitude_segments indices in
  Ok (vertices, indices).

End Floats.

(** ** Output: the console and the FBX file *)

(** The two sinks the scripts write to, each as the sequence of chunks
    written so far. *)
Record world : Type := {
  stdout : list string;
  fbx_file : list string
}.

(** A statement with an effect on the sinks: it ends normally or raises, and
    what was written before an exception stays written. *)
Definition io (A : Type) : Type := world -> result A * world.

Definition io_ret {A : Type} (a : A) : io A := fun w => (Ok a, w).

Definition io_bind {A B : Type} (m : io A) (k : A -> io B) : io B :=
  fun w =>
    match m w with
    | (Ok a, w') => k a w'
    | (Raise e, w') => (Raise e, w')
    end.

(** An expression that may raise, evaluated inside a statement. *)
Definition eval {A : Type} (r : result A) : io A := fun w => (r, w).

Notation "x <~ m ;; k" := (io_bind m (fun x => k))
  (at level 61, m at next level, right associativity).
Notation "m ;;; k" := (io_bind m (fun _ => k))
  (at level 61, right associativity).

Definition nl : string := String "010"%char EmptyString.
Definition dq : string := String "034"%char EmptyString.

(** [print(s)]. *)
Definition print (s : string) : io unit :=
  fun w => (Ok tt, {| stdout := stdout w ++ [(s ++ nl)%string];
                      fbx_file := fbx_file w |}).

(** [open('assets/UnitSphere.fbx', 'w')]: the file starts empty. *)
Definition open_w : io unit :=
  fun w => (Ok tt, {| stdout := stdout w; fbx_file := [] |}).

(** [f.write(s)]. *)
Definition f_write (s : string) : io unit :=
  fun w => (Ok tt, {| stdout := stdout w; fbx_file := fbx_file w ++ [s] |}).

(** A [for] loop of statements. *)
Fixpoint for_io {A : Type} (xs : list A) (body : A -> io unit) : io unit :=
  match xs with
  | [] => io_ret tt
  | x :: xs' => body x ;;; for_io xs' body
  end.

(** A run of [f.write] calls on literals. *)
Definition write_all (chunks : list string) : io unit :=
  for_io chunks f_write.

Local Open Scope string_scope.

(** [create_sphere_fbx.py], lines 50-184: the fixed text before the arrays. *)
Definition fbx_preamble : list string := [
  (* FBX Header *)
  "; FBX 7.7.0 project file" ++ nl;
  "; ----------------------------------------------------" ++ nl ++ nl;
  (* FBX Version *)
  "FBXHeaderExtension:  {" ++ nl;
  "    FBXHeaderVersion: 1003" ++ nl;
  "    FBXVersion: 7700" ++ nl;
  "    CreationTimeStamp:  {" ++ nl;
  "        Version: 1000" ++ nl;
  "        Year: 2024" ++ nl;
  "        Month: 1" ++ nl;
  "        Day: 1" ++ nl;
  "        Hour: 0" ++ nl;
  "        Minute: 0" ++ nl;
  "        Second: 0" ++ nl;
  "        Millisecond: 0" ++ nl;
  "    }" ++ nl;
  "    Creator: " ++ dq ++ "UnitSphere Generator" ++ dq ++ nl;
  "    OtherFlags:  {" ++ nl;
  "        FlagPLE: 0" ++ nl;
  "    }" ++ nl;
  "}" ++ nl ++ nl;
  (* Global Settings *)
  "GlobalSettings:  {" ++ nl;
  "    Version: 1000" ++ nl;
  "    Properties70:  {" ++ nl;
  "        P: " ++ dq ++ "UpAxis" ++ dq ++ ", " ++ dq ++ "int" ++ dq ++ ", " ++ dq ++ "Integer" ++ dq ++ ", " ++ dq ++ dq ++ ",1" ++ nl;
  "        P: " ++ dq ++ "UpAxisSign" ++ dq ++ ", " ++ dq ++ "int" ++ dq ++ ", " ++ dq ++ "Integer" ++ dq ++ ", " ++ dq ++ dq ++ ",1" ++ nl;
  "        P: " ++ dq ++ "FrontAxis" ++ dq ++ ", " ++ dq ++ "int" ++ dq ++ ", " ++ dq ++ "Integer" ++ dq ++ ", " ++ dq ++ dq ++ ",2" ++ nl;
  "        P: " ++ dq ++ "FrontAxisSign" ++ dq ++ ", " ++ dq ++ "int" ++ dq ++ ", " ++ dq ++ "Integer" ++ dq ++ ", " ++ dq ++ dq ++ ",1" ++ nl;
  "        P: " ++ dq ++ "CoordAxis" ++ dq ++ ", " ++ dq ++ "int" ++ dq ++ ", " ++ dq ++ "Integer" ++ dq ++ ", " ++ dq ++ dq ++ ",0" ++ nl;
  "        P: " ++ dq ++ "CoordAxisSign" ++ dq ++ ", " ++ dq ++ "int" ++ dq ++ ", " ++ dq ++ "Integer" ++ dq ++ ", " ++ dq ++ dq ++ ",1" ++ nl;
  "        P: " ++ dq ++ "OriginalUpAxis" ++ dq ++ ", " ++ dq ++ "int" ++ dq ++ ", " ++ dq ++ "Integer" ++ dq ++ ", " ++ dq ++ dq ++ ",1" ++ nl;
  "        P: " ++ dq ++ "OriginalUpAxisSign" ++ dq ++ ", " ++ dq ++ "int" ++ dq ++ ", " ++ dq ++ "Integer" ++ dq ++ ", " ++ dq ++ dq ++ ",1" ++ nl;
  "        P: " ++ dq ++ "UnitScaleFactor" ++ dq ++ ", " ++ dq ++ "double" ++ dq ++ ", " ++ dq ++ "Number" ++ dq ++ ", " ++ dq ++ dq ++ ",1" ++ nl;
  "        P: " ++ dq ++ "OriginalUnitScaleFactor" ++ dq ++ ", " ++ dq ++ "double" ++ dq ++ ", " ++ dq ++ "Number" ++ dq ++ ", " ++ dq ++ dq ++ ",1" ++ nl;
  "        P: " ++ dq ++ "AmbientColor" ++ dq ++ ", " ++ dq ++ "ColorRGB" ++ dq ++ ", " ++ dq ++ "Color" ++ dq ++ ", " ++ dq ++ dq ++ ",0.4,0.4,0.4" ++ nl;
  "        P: " ++ dq ++ "DefaultCamera" ++ dq ++ ", " ++ dq ++ "KString" ++ dq ++ ", " ++ dq ++ dq ++ ", " ++ dq ++ dq ++ ", " ++ dq ++ "Producer Perspective" ++ dq ++ nl;
  "        P: " ++ dq ++ "TimeMode" ++ dq ++ ", " ++ dq ++ "enum" ++ dq ++ ", " ++ dq ++ dq ++ ", " ++ dq ++ dq ++ ",6" ++ nl;
  "        P: " ++ dq ++ "TimeProtocol" ++ dq ++ ", " ++ dq ++ "enum" ++ dq ++ ", " ++ dq ++ dq ++ ", " ++ dq ++ dq ++ ",2" ++ nl;
  "        P: " ++ dq ++ "SnapOnFrameMode" ++ dq ++ ", " ++ dq ++ "enum" ++ dq ++ ", " ++ dq ++ dq ++ ", " ++ dq ++ dq ++ ",0" ++ nl;
  "        P: " ++ dq ++ "TimeSpanStart" ++ dq ++ ", " ++ dq ++ "KTime" ++ dq ++ ", " ++ dq ++ "Time" ++ dq ++ ", " ++ dq ++ dq ++ ",0" ++ nl;
  "        P: " ++ dq ++ "TimeSpanStop" ++ dq ++ ", " ++ dq ++ "KTime" ++ dq ++ ", " ++ dq ++ "Time" ++ dq ++ ", " ++ dq ++ dq ++ ",153953860000" ++ nl;
  "        P: " ++ dq ++ "CustomFrameRate" ++ dq ++ ", " ++ dq ++ "double" ++ dq ++ ", " ++ dq ++ "Number" ++ dq ++ ", " ++ dq ++ dq ++ ",-1" ++ nl;
  "        P: " ++ dq ++ "TimeMarker" ++ dq ++ ", " ++ dq ++ "Compound" ++ dq ++ ", " ++ dq ++ dq ++ ", " ++ dq ++ dq ++ nl;
  "        P: " ++ dq ++ "CurrentTimeMarker" ++ dq ++ ", " ++ dq ++ "int" ++ dq ++ ", " ++ dq ++ "Integer" ++ dq ++ ", " ++ dq ++ dq ++ ",-1" ++ nl;
  "    }" ++ nl;
  "}" ++ nl ++ nl;
  (* Documents *)
  "Documents:  {" ++ nl;
  "    Count: 1" ++ nl;
  "    Document: *1 {" ++ nl;
  "        " ++ dq ++ "Document::UnitSphere" ++ dq ++ ", " ++ dq ++ "Scene" ++ dq ++ nl;
  "        Properties70:  {" ++ nl;
  "            P: " ++ dq ++ "SourceObject" ++ dq ++ ", " ++ dq ++ "object" ++ dq ++ ", " ++ dq ++ dq ++ ", " ++ dq ++ dq ++ nl;
  "            P: " ++ dq ++ "ActiveAnimStackName" ++ dq ++ ", " ++ dq ++ "KString" ++ dq ++ ", " ++ dq ++ dq ++ ", " ++ dq ++ dq ++ ", " ++ dq ++ dq ++ nl;
  "        }" ++ nl;
  "        RootNode: 0" ++ nl;
  "    }" ++ nl;
  "}" ++ nl ++ nl;
  (* References *)
  "References:  {" ++ nl;
  "}" ++ nl ++ nl;
  (* Definitions *)
  "Definitions:  {" ++ nl;
  "    Version: 100" ++ nl;
  "    Count: 2" ++ nl;
  "    ObjectType: " ++ dq ++ "GlobalSettings" ++ dq ++ " {" ++ nl;
  "        Count: 1" ++ nl;
  "    }" ++ nl;
  "    ObjectType: " ++ dq ++ "Model" ++ dq ++ " {" ++ nl;
  "        Count: 1" ++ nl;
  "        PropertyTemplate: " ++ dq ++ "FbxNode" ++ dq ++ " {" ++ nl;
  "            Properties70:  {" ++ nl;
  "                P: " ++ dq ++ "DefaultAttributeIndex" ++ dq ++ ", " ++ dq ++ "int" ++ dq ++ ", " ++ dq ++ "Integer" ++ dq ++ ", " ++ dq ++ dq ++ ",0" ++ nl;
  "                P: " ++ dq ++ "DefaultAttributeIndex" ++ dq ++ ", " ++ dq ++ "int" ++ dq ++ ", " ++ dq ++ "Integer" ++ dq ++ ", " ++ dq ++ dq ++ ",0" ++ nl;
  "            }" ++ nl;
  "        }" ++ nl;
  "    }" ++ nl;
  "}" ++ nl ++ nl;
  (* Objects *)
  "Objects:  {" ++ nl;
  "    GlobalSettings: *0 {" ++ nl;
  "        Version: 1000" ++ nl;
  "        Properties70:  {" ++ nl;
  "            P: " ++ dq ++ "UpAxis" ++ dq ++ ", " ++ dq ++ "int" ++ dq ++ ", " ++ dq ++ "Integer" ++ dq ++ ", " ++ dq ++ dq ++ ",1" ++ nl;
  "            P: " ++ dq ++ "UpAxisSign" ++ dq ++ ", " ++ dq ++ "int" ++ dq ++ ", " ++ dq ++ "Integer" ++ dq ++ ", " ++ dq ++ dq ++ ",1" ++ nl;
  "            P: " ++ dq ++ "FrontAxis" ++ dq ++ ", " ++ dq ++ "int" ++ dq ++ ", " ++ dq ++ "Integer" ++ dq ++ ", " ++ dq ++ dq ++ ",2" ++ nl;
  "            P: " ++ dq ++ "FrontAxisSign" ++ dq ++ ", " ++ dq ++ "int" ++ dq ++ ", " ++ dq ++ "Integer" ++ dq ++ ", " ++ dq ++ dq ++ ",1" ++ nl;
  "            P: " ++ dq ++ "CoordAxis" ++ dq ++ ", " ++ dq ++ "int" ++ dq ++ ", " ++ dq ++ "Integer" ++ dq ++ ", " ++ dq ++ dq ++ ",0" ++ nl;
  "            P: " ++ dq ++ "CoordAxisSign" ++ dq ++ ", " ++ dq ++ "int" ++ dq ++ ", " ++ dq ++ "Integer" ++ dq ++ ", " ++ dq ++ dq ++ ",1" ++ nl;
  "            P: " ++ dq ++ "OriginalUpAxis" ++ dq ++ ", " ++ dq ++ "int" ++ dq ++ ", " ++ dq ++ "Integer" ++ dq ++ ", " ++ dq ++ dq ++ ",1" ++ nl;
  "            P: " ++ dq ++ "OriginalUpAxisSign" ++ dq ++ ", " ++ dq ++ "int" ++ dq ++ ", " ++ dq ++ "Integer" ++ dq ++ ", " ++ dq ++ dq ++ ",1" ++ nl;
  "            P: " ++ dq ++ "UnitScaleFactor" ++ dq ++ ", " ++ dq ++ "double" ++ dq ++ ", " ++ dq ++ "Number" ++ dq ++ ", " ++ dq ++ dq ++ ",1" ++ nl;
  "            P: " ++ dq ++ "OriginalUnitScaleFactor" ++ dq ++ ", " ++ dq ++ "double" ++ dq ++ ", " ++ dq ++ "Number" ++ dq ++ ", " ++ dq ++ dq ++ ",1" ++ nl;
  "            P: " ++ dq ++ "AmbientColor" ++ dq ++ ", " ++ dq ++ "ColorRGB" ++ dq ++ ", " ++ dq ++ "Color" ++ dq ++ ", " ++ dq ++ dq ++ ",0.4,0.4,0.4" ++ nl;
  "            P: " ++ dq ++ "DefaultCamera" ++ dq ++ ", " ++ dq ++ "KString" ++ dq ++ ", " ++ dq ++ dq ++ ", " ++ dq ++ dq ++ ", " ++ dq ++ "Producer Perspective" ++ dq ++ nl;
  "            P: " ++ dq ++ "TimeMode" ++ dq ++ ", " ++ dq ++ "enum" ++ dq ++ ", " ++ dq ++ dq ++ ", " ++ dq ++ dq ++ ",6" ++ nl;
  "            P: " ++ dq ++ "TimeProtocol" ++ dq ++ ", " ++ dq ++ "enum" ++ dq ++ ", " ++ dq ++ dq ++ ", " ++ dq ++ dq ++ ",2" ++ nl;
  "            P: " ++ dq ++ "SnapOnFrameMode" ++ dq ++ ", " ++ dq ++ "enum" ++ dq ++ ", " ++ dq ++ dq ++ ", " ++ dq ++ dq ++ ",0" ++ nl;
  "            P: " ++ dq ++ "TimeSpanStart" ++ dq ++ ", " ++ dq ++ "KTime" ++ dq ++ ", " ++ dq ++ "Time" ++ dq ++ ", " ++ dq ++ dq ++ ",0" ++ nl;
  "            P: " ++ dq ++ "TimeSpanStop" ++ dq ++ ", " ++ dq ++ "KTime" ++ dq ++ ", " ++ dq ++ "Time" ++ dq ++ ", " ++ dq ++ dq ++ ",153953860000" ++ nl;
  "            P: " ++ dq ++ "CustomFrameRate" ++ dq ++ ", " ++ dq ++ "double" ++ dq ++ ", " ++ dq ++ "Number" ++ dq ++ ", " ++ dq ++ dq ++ ",-1" ++ nl;
  "            P: " ++ dq ++ "TimeMarker" ++ dq ++ ", " ++ dq ++ "Compound" ++ dq ++ ", " ++ dq ++ dq ++ ", " ++ dq ++ dq ++ nl;
  "            P: " ++ dq ++ "CurrentTimeMarker" ++ dq ++ ", " ++ dq ++ "int" ++ dq ++ ", " ++ dq ++ "Integer" ++ dq ++ ", " ++ dq ++ dq ++ ",-1" ++ nl;
  "        }" ++ nl;
  "    }" ++ nl;
  "    Model: " ++ dq ++ "Model::UnitSphere" ++ dq ++ ", " ++ dq ++ "Mesh" ++ dq ++ " {" ++ nl;
  "        Version: 232" ++ nl;
  "        Properties70:  {" ++ nl;
  "            P: " ++ dq ++ "DefaultAttributeIndex" ++ dq ++ ", " ++ dq ++ "int" ++ dq ++ ", " ++ dq ++ "Integer" ++ dq ++ ", " ++ dq ++ dq ++ ",0" ++ nl;
  "            P: " ++ dq ++ "DefaultAttributeIndex" ++ dq ++ ", " ++ dq ++ "int" ++ dq ++ ", " ++ dq ++ "Integer" ++ dq ++ ", " ++ dq ++ dq ++ ",0" ++ nl;
  "        }" ++ nl;
  "        MultiLayer: 0" ++ nl;
  "        MultiTake: 0" ++ nl;
  "        Shading: Y" ++ nl;
  "        Culling: " ++ dq ++ "CullingOff" ++ dq ++ nl;
  "    }" ++ nl;
  "}" ++ nl ++ nl;
  (* Connections *)
  "Connections:  {" ++ nl;
  "    C: " ++ dq ++ "OO" ++ dq ++ ",0,1" ++ nl;
  "}" ++ nl ++ nl;
  (* Write the geometry data *)
  "Geometry: " ++ dq ++ "Geometry::UnitSphere" ++ dq ++ " {" ++ nl;
  "    Properties70:  {" ++ nl;
  "        P: " ++ dq ++ "Color" ++ dq ++ ", " ++ dq ++ "ColorRGB" ++ dq ++ ", " ++ dq ++ "Color" ++ dq ++ ", " ++ dq ++ dq ++ ",0.8,0.8,0.8" ++ nl;
  "    }" ++ nl
].

Local Open Scope list_scope.
Local Open Scope Z_scope.

Section Scripts.

Context {F : Type} {ops : PyFloat F}.

(** ** [create_sphere_fbx.py] *)

(** Line 187: one line of the vertex array. *)
Definition vertex_line (x y z : F) : string :=
  ("        a: " ++ format_6f x ++ ", " ++ format_6f y ++ ", " ++ format_6f z
     ++ "," ++ nl)%string.

(** Line 191: one line of the index array. *)
Definition index_line (a b c : Z) : string :=
  ("        a: " ++ str a ++ ", " ++ str b ++ ", " ++ str c ++ "," ++ nl)%string.

(** Line 204: one line of the normals array. *)
Definition normal_line (x y z : F) : string :=
  ("            a: " ++ format_6f x ++ ", " ++ format_6f y ++ ", "
     ++ format_6f z ++ "," ++ nl)%string.

(** Lines 201-203: the normal of the vertex [(x, y, z)]. *)
Definition normalize (x y z : F) : result (F * F * F) :=
  let length := math_sqrt (fadd (fadd (fmul x x) (fmul y y)) (fmul z z)) in
  if gt_zero length then
    x' <- truediv x length ;;
    y' <- truediv y length ;;
    z' <- truediv z length ;;
    Ok (x', y', z')
  else Ok (x, y, z).

(** Lines 185-188. *)
Definition write_vertices (vertices : list F) (vertex_count : Z) : io unit :=
  f_write ("    Vertices: *" ++ str vertex_count ++ " {" ++ nl)%string ;;;
  for_io (range_step (len vertices) 3)
    (fun i =>
       x <~ eval (getitem vertices i) ;;
       y <~ eval (getitem vertices (i + 1)) ;;
       z <~ eval (getitem vertices (i + 2)) ;;
       f_write (vertex_line x y z)) ;;;
  f_write ("    }" ++ nl)%string.

(** Lines 189-192. *)
Definition write_indices (indices : list Z) (index_count : Z) : io unit :=
  f_write ("    PolygonVertexIndex: *" ++ str index_count ++ " {" ++ nl)%string ;;;
  for_io (range_step (len indices) 3)
    (fun i =>
       a <~ eval (getitem indices i) ;;
       b <~ eval (getitem indices (i + 1)) ;;
       c <~ eval (getitem indices (i + 2)) ;;
       f_write (index_line a b c)) ;;;
  f_write ("    }" ++ nl)%string.

(** Lines 196-206. *)
Definition write_normals (vertices : list F) (vertex_count : Z) : io unit :=
  f_write ("    LayerElementNormal: 0 {" ++ nl)%string ;;;
  f_write ("        Normals: *" ++ str vertex_count ++ " {" ++ nl)%string ;;;
  for_io (range_step (len vertices) 3)
    (fun i =>
       (* For a sphere, normals are the same as vertex positions (normalized) *)
       x <~ eval (getitem vertices i) ;;
       y <~ eval (getitem vertices (i + 1)) ;;
       z <~ eval (getitem vertices (i + 2)) ;;
       n <~ eval (normalize x y z) ;;
       let '(x, y, z) := n in
       f_write (normal_line x y z)) ;;;
  f_write ("        }" ++ nl)%string ;;;
  f_write ("    }" ++ nl)%string.

(** Lines 48-207: the body of the [with] statement. *)
Definition write_fbx (vertices : list F) (indices : list Z)
  (vertex_count index_count : Z) : io unit :=
  open_w ;;;
  write_all fbx_preamble ;;;
  write_vertices vertices vertex_count ;;;
  write_indices indices index_count ;;;
  f_write ("    Edges: *0 {" ++ nl)%string ;;;
  f_write ("    }" ++ nl)%string ;;;
  f_write ("    GeometryVersion: 124" ++ nl)%string ;;;
  write_normals vertices vertex_count ;;;
  f_write ("}" ++ nl)%string.

(** Lines 41-209: the script after the call of [generate_sphere], for the
    mesh that call returned. *)
Definition serialize_fbx (vertices : list F) (indices : list Z) : io unit :=
  let vertex_count := len vertices / 3 in
  let index_count := len indices in
  let triangle_count := index_count / 3 in
  print ("Generated sphere with " ++ str vertex_count ++ " vertices and "
           ++ str index_count ++ " indices (" ++ str triangle_count
           ++ " triangles)")%string ;;;
  (* Create the FBX file *)
  write_fbx vertices indices vertex_count index_count ;;;
  print "UnitSphere.fbx created successfully!".

(** The script [create_sphere_fbx.py]. *)
Definition create_sphere_fbx : io unit :=
  (* Generate sphere data *)
  mesh <~ eval (generate_sphere (of_int 1) 16 32) ;;
  let '(vertices, indices) := mesh in
  serialize_fbx vertices indices.

(** ** [generate_sphere.py] *)

(** Lines 48 and 62: one printed line of coordinates. *)
Definition printed_vertex (x y z : F) : string :=
  ("a: " ++ format_6f x ++ ", " ++ format_6f y ++ ", " ++ format_6f z
     ++ ",")%string.

(** Line 55: one printed line of indices. *)
Definition printed_index (a b c : Z) : string :=
  ("a: " ++ str a ++ ", " ++ str b ++ ", " ++ str c ++ ",")%string.

(** Lines 47-48 and 61-62: the loop that prints the coordinates, three to a
    line. *)
Definition print_triples (vertices : list F) : io unit :=
  for_io (range_step (len vertices) 3)
    (fun i =>
       x <~ eval (getitem vertices i) ;;
       y <~ eval (getitem vertices (i + 1)) ;;
       z <~ eval (getitem vertices (i + 2)) ;;
       print (printed_vertex x y z)).

(** Lines 42-63: the script after the call of [generate_sphere]. *)
Definition print_mesh (vertices : list F) (indices : list Z) : io unit :=
  print ("Generated sphere with " ++ str (len vertices / 3) ++ " vertices and "
           ++ str (len indices) ++ " indices (" ++ str (len indices / 3)
           ++ " triangles)")%string ;;;
  (* Output vertices for FBX *)
  print (nl ++ "Vertices:")%string ;;;
  print ("Vertices: *" ++ str (len vertices / 3) ++ " {")%string ;;;
  print_triples vertices ;;;
  print "}" ;;;
  (* Output indices for FBX *)
  print (nl ++ "PolygonVertexIndex:")%string ;;;
  print ("PolygonVertexIndex: *" ++ str (len indices) ++ " {")%string ;;;
  for_io (range_step (len indices) 3)
    (fun i =>
       a <~ eval (getitem indices i) ;;
       b <~ eval (getitem indices (i + 1)) ;;
       c <~ eval (getitem indices (i + 2)) ;;
       print (printed_index a b c)) ;;;
  print "}" ;;;
  (* Calculate normals (same as vertices for unit sphere) *)
  print (nl ++ "Normals:")%string ;;;
  print ("Normals: *" ++ str (len vertices / 3) ++ " {")%string ;;;
  print_triples vertices ;;;
  print "}".

(** The script [generate_sphere.py]. *)
Definition generate_sphere_py : io unit :=
  mesh <~ eval (generate_sphere (of_int 1) 16 32) ;;
  let '(vertices, indices) := mesh in
  print_mesh vertices indices.

End Scripts.

(** ** Exact arithmetic: the real numbers as floats *)

(** The integer nearest to [y], the even one of the two when [y] lies half
    way. *)
Definition round_half_even (y : R) : Z :=
  let f := up y - 1 in
  let d := (y - IZR f)%R in
  if Rlt_dec d (1 / 2) then f
  else if Rlt_dec (1 / 2) d then f + 1
  else if Z.even f then f else f + 1.

Definition R_is_zero (x : R) : bool :=
  if Req_dec_T x 0 then true else false.

Definition R_gt_zero (x : R) : bool :=
  if Rlt_dec 0 x then true else false.

Definition R_to_fixed6 (x : R) : float_repr :=
  Finite (if Rlt_dec x 0 then true else false)
         (Z.to_N (round_half_even (Rabs x * 1000000))).

#[export] Instance exact_reals : PyFloat R.
Proof.
  refine {| of_int := IZR;
            math_pi := PI;
            fadd := Rplus;
            fmul := Rmult;
            fdiv := Rdiv;
            math_sin := sin;
            math_cos := cos;
            math_sqrt := sqrt;
            is_zero := R_is_zero;
            gt_zero := R_gt_zero;
            to_fixed6 := R_to_fixed6 |}.
  intros x. unfold R_gt_zero, R_is_zero.
  destruct (Rlt_dec 0 x) as [Hpos | ]; [ intros _ | discriminate ].
  destruct (Req_dec_T x 0) as [Heq | ]; [ | reflexivity ].
  exfalso; rewrite Heq in Hpos; exact (Rlt_irrefl 0 Hpos).
Defined.

(** ** Double precision: Python's own floats *)

Module Binary64.

Import PrimFloat.

(** [float(n)] for an integer in the range of a float: the nearest double,
    ties to even. *)
Definition of_Z (n : Z) : float :=
  FloatOps.SF2Prim (SpecFloat.binary_normalize 53 1024 n 0 false).

(** [math.pi]. *)
Definition pi : float := 0x1.921fb54442d18p+1%float.

(** The quotient [n / d] rounded to the nearest integer, ties to even. *)
Definition div_half_even (n d : N) : N :=
  let q := (n / d)%N in
  let r := (n mod d)%N in
  match (2 * r ?= d)%N with
  | Lt => q
  | Gt => (q + 1)%N
  | Eq => if N.even q then q else (q + 1)%N
  end.

(** The magnitude [m * 2^e] in millionths, rounded. *)
Definition millionths (m : positive) (e : Z) : N :=
  match e with
  | Zneg p => div_half_even (Npos m * 1000000) (2 ^ Npos p)
  | _ => (Npos m * 1000000 * 2 ^ Z.to_N e)%N
  end.

Definition to_fixed6 (x : float) : float_repr :=
  match FloatOps.Prim2SF x with
  | SpecFloat.S754_zero s => Finite s 0
  | SpecFloat.S754_infinity s => Infinite s
  | SpecFloat.S754_nan => NotANumber
  | SpecFloat.S754_finite s m e => Finite s (millionths m e)
  end.

Lemma ltb_zero_eqb (x : float) :
  ltb 0 x = true -> eqb x 0 = false.
Proof.
  rewrite FloatAxioms.ltb_spec, FloatAxioms.eqb_spec.
  change (FloatOps.Prim2SF 0) with (SpecFloat.S754_zero false).
  destruct (FloatOps.Prim2SF x) as [s | s | | s m e]; try discriminate;
    destruct s; try discriminate; reflexivity.
Qed.

(** The doubles as floats.  [math.sin] and [math.cos] come from the C
    library and are left open. *)
Definition doubles (libm_sin libm_cos : float -> float) : PyFloat float :=
  Build_PyFloat float
    of_Z                      (* of_int *)
    pi                        (* math_pi *)
    add mul div               (* fadd, fmul, fdiv *)
    libm_sin libm_cos         (* math_sin, math_cos *)
    sqrt                      (* math_sqrt *)
    (fun x => eqb x 0)        (* is_zero: x == 0.0 *)
    (fun x => ltb 0 x)        (* gt_zero: x > 0 *)
    to_fixed6
    ltb_zero_eqb.

(** The doubles the statements name. *)
Definition zero : float := 0%float.
Definition one : float := 1%float.
Definition huge : float := 0x1p+700%float.
Definition tiny : float := 0x1p-700%float.

End Binary64.

(** ** The statements' vocabulary *)

(** A flat list read three elements at a time. *)
Fixpoint triples {A : Type} (l : list A) : list (A * A * A) :=
  match l with
  | a :: b :: c :: l' => (a, b, c) :: triples l'
  | _ => []
  end.

(** The two triangles of the grid cell [(lat, lon)], in the words of the
    specification. *)
Definition spec_cell (N lat lon : Z) : list Z :=
  let first := lat * (N + 1) + lon in
  let second := first + N + 1 in
  [first; second; first + 1] ++ [second; second + 1; first + 1].

(** The index list of the specification: the cells in latitude-major
    order. *)
Definition spec_indices (L N : Z) : list Z :=
  flat_map (fun lat => flat_map (fun lon => spec_cell N lat lon) (range N))
    (range L).

(** The two triangles of the grid cell [(lat, lon)], as index triples. *)
Definition cell_triangles (N lat lon : Z) : list (Z * Z * Z) :=
  let first := lat * (N + 1) + lon in
  let second := first + N + 1 in
  [(first, second, first + 1); (second, second + 1, first + 1)].

(** A segment count Python converts to a float, also when doubled: the
    conversions of [lat], [lon * 2] and of the two counts raise
    [OverflowError] only from about [2^1024] on. *)
Definition small_count (n : Z) : Prop := Z.abs n < 2 ^ 1000.

(** The grid point an index refers to: the vertices are stored row by row,
    [N + 1] to a row. *)
Definition grid_row (N i : Z) : Z := i / (N + 1).
Definition grid_col (N i : Z) : Z := i mod (N + 1).

(** Whether a chunk of text ends with a newline. *)
Fixpoint ends_with_newline (s : string) : bool :=
  match s with
  | EmptyString => false
  | String c EmptyString => Ascii.eqb c "010"%char
  | String _ s' => ends_with_newline s'
  end.

Section Vocabulary.

Context {F : Type} {ops : PyFloat F}.

(** The coordinate triple of the grid point [(lat, lon)], as lines 11-22
    compute it. *)
Definition grid_vertex (radius : F) (L N lat lon : Z) : F * F * F :=
  let theta := fdiv (fmul (of_int lat) math_pi) (of_int L) in
  let phi := fdiv (fmul (of_int (lon * 2)) math_pi) (of_int N) in
  (fmul (fmul radius (math_cos phi)) (math_sin theta),
   fmul radius (math_cos theta),
   fmul (fmul radius (math_sin phi)) (math_sin theta)).

(** The flat coordinate list of the whole grid, latitude-major. *)
Definition grid_vertices (radius : F) (L N : Z) : list F :=
  flat_map
    (fun lat =>
       flat_map
         (fun lon => let '(x, y, z) := grid_vertex radius L N lat lon in
                     [x; y; z])
         (range (N + 1)))
    (range (L + 1)).

(** The same grid as a list of triples. *)
Definition grid_triples (radius : F) (L N : Z) : list (F * F * F) :=
  flat_map
    (fun lat => map (fun lon => grid_vertex radius L N lat lon) (range (N + 1)))
    (range (L + 1)).

(** The normal lines 201-203 leave in [(x, y, z)] when no division raises. *)
Definition normal_of (v : F * F * F) : F * F * F :=
  let '(x, y, z) := v in
  let length := math_sqrt (fadd (fadd (fmul x x) (fmul y y)) (fmul z z)) in
  if gt_zero length then (fdiv x length, fdiv y length, fdiv z length)
  else (x, y, z).

Definition vertex_lines (vertices : list F) : list string :=
  map (fun '(x, y, z) => vertex_line x y z) (triples vertices).

Definition index_lines (indices : list Z) : list string :=
  map (fun '(a, b, c) => index_line a b c) (triples indices).

Definition normal_lines (vertices : list F) : list string :=
  map (fun v => let '(x, y, z) := normal_of v in normal_line x y z)
    (triples vertices).

(** The chunks [write_fbx] leaves in the file when it ends normally: the
    preamble, then the three arrays between their fixed lines. *)
Definition fbx_document (vertices : list F) (indices : list Z)
  (vertex_count index_count : Z) : list string :=
  fbx_preamble
    ++ [("    Vertices: *" ++ str vertex_count ++ " {" ++ nl)%string]
    ++ vertex_lines vertices
    ++ [("    }" ++ nl)%string;
        ("    PolygonVertexIndex: *" ++ str index_count ++ " {" ++ nl)%string]
    ++ index_lines indices
    ++ [("    }" ++ nl)%string;
        ("    Edges: *0 {" ++ nl)%string;
        ("    }" ++ nl)%string;
        ("    GeometryVersion: 124" ++ nl)%string;
        ("    LayerElementNormal: 0 {" ++ nl)%string;
        ("        Normals: *" ++ str vertex_count ++ " {" ++ nl)%string]
    ++ normal_lines vertices
    ++ [("        }" ++ nl)%string;
        ("    }" ++ nl)%string;
        ("}" ++ nl)%string].

(** The lines [generate_sphere.py] prints for the coordinates, and for the
    indices, three to a line. *)
Definition printed_vertices (vertices : list F) : list string :=
  map (fun '(x, y, z) => (printed_vertex x y z ++ nl)%string)
    (triples vertices).

Definition printed_indices (indices : list Z) : list string :=
  map (fun '(a, b, c) => (printed_index a b c ++ nl)%string) (triples indices).

End Vocabulary.

(** The sinks before a script starts. *)
Definition fresh : world := {| stdout := []; fbx_file := [] |}.







(** * Properties *)

(** ** The runtime on small inputs *)

Example range_3 : range 3 = [0; 1; 2].
Proof. reflexivity. Qed.

Example range_negative : range (-2) = [].
Proof. reflexivity. Qed.

Example range_step_7 : range_step 7 3 = [0; 3; 6].
Proof. reflexivity. Qed.

Example getitem_from_end : getitem [10; 20; 30] (-1) = Ok 30.
Proof. reflexivity. Qed.

Example getitem_out_of_range : getitem [10; 20; 30] 3 = Raise IndexError.
Proof. reflexivity. Qed.

Example str_3072 : str 3072 = "3072".
Proof. reflexivity. Qed.

Example str_zero : str 0 = "0".
Proof. reflexivity. Qed.

Example str_negative : str (-5) = "-5".
Proof. reflexivity. Qed.

Example render_negative : render_6f (Finite true 1234567) = "-1.234567".
Proof. reflexivity. Qed.

Example render_small : render_6f (Finite false 42) = "0.000042".
Proof. reflexivity. Qed.

Example render_negative_zero : render_6f (Finite true 0) = "-0.000000".
Proof. reflexivity. Qed.

Example render_infinity : render_6f (Infinite true) = "-inf".
Proof. reflexivity. Qed.

Example format_third (libm_sin libm_cos : PrimFloat.float -> PrimFloat.float) :
  format_6f (ops := Binary64.doubles libm_sin libm_cos)
    (PrimFloat.div Binary64.one (Binary64.of_Z 3))
  = "0.333333".
Proof. reflexivity. Qed.

Example format_two_thirds
  (libm_sin libm_cos : PrimFloat.float -> PrimFloat.float) :
  format_6f (ops := Binary64.doubles libm_sin libm_cos)
    (PrimFloat.div (Binary64.of_Z (-2)) (Binary64.of_Z 3))
  = "-0.666667".
Proof. reflexivity. Qed.

Example format_pi (libm_sin libm_cos : PrimFloat.float -> PrimFloat.float) :
  format_6f (ops := Binary64.doubles libm_sin libm_cos) Binary64.pi
  = "3.141593".
Proof. reflexivity. Qed.

Example format_tiny (libm_sin libm_cos : PrimFloat.float -> PrimFloat.float) :
  format_6f (ops := Binary64.doubles libm_sin libm_cos) Binary64.tiny
  = "0.000000".
Proof. reflexivity. Qed.

Example format_not_finite
  (libm_sin libm_cos : PrimFloat.float -> PrimFloat.float) :
  format_6f (ops := Binary64.doubles libm_sin libm_cos)
    (PrimFloat.mul Binary64.huge Binary64.huge)
  = "inf".
Proof. reflexivity. Qed.

Example normalize_3_4_0
  (libm_sin libm_cos : PrimFloat.float -> PrimFloat.float) :
  normalize (ops := Binary64.doubles libm_sin libm_cos)
    (Binary64.of_Z 3) (Binary64.of_Z 4) Binary64.zero
  = Ok (PrimFloat.div (Binary64.of_Z 3) (Binary64.of_Z 5),
        PrimFloat.div (Binary64.of_Z 4) (Binary64.of_Z 5),
        Binary64.zero).
Proof. reflexivity. Qed.

Example generate_indices_1_2 :
  generate_indices 1 2 [] = [0; 3; 1; 3; 4; 1; 1; 4; 2; 4; 5; 2].
Proof. reflexivity. Qed.

Example index_line_0_3_1 :
  index_line 0 3 1 = ("        a: 0, 3, 1," ++ nl)%string.
Proof. reflexivity. Qed.

(** ** Ranges and loops *)

Lemma range_nonpos (n : Z) : n <= 0 -> range n = [].
Proof.
  intros Hn. unfold range.
  replace (Z.to_nat n) with 0%nat by lia. reflexivity.
Qed.

Lemma range_succ (n : Z) : 0 <= n -> range (n + 1) = range n ++ [n].
Proof.
  intros Hn. unfold range.
  replace (Z.to_nat (n + 1)) with (S (Z.to_nat n)) by lia.
  rewrite seq_S, map_app. simpl. now rewrite Z2Nat.id.
Qed.

Lemma range_first (n : Z) : 1 <= n -> exists tl, range n = 0 :: tl.
Proof.
  intros Hn. unfold range.
  destruct (Z.to_nat n) as [ | k] eqn:E; [ lia | ].
  simpl. eexists; reflexivity.
Qed.

Lemma length_range (n : Z) : List.length (range n) = Z.to_nat n.
Proof. unfold range. now rewrite length_map, length_seq. Qed.

Lemma in_range (n x : Z) : In x (range n) <-> 0 <= x < n.
Proof.
  unfold range. rewrite in_map_iff. split.
  - intros (k & <- & Hk). apply in_seq in Hk. lia.
  - intros Hx. exists (Z.to_nat x). split; [ lia | ].
    apply in_seq. lia.
Qed.

Lemma nth_range (n : Z) (k : nat) (d : Z) :
  (k < Z.to_nat n)%nat -> nth k (range n) d = Z.of_nat k.
Proof.
  intros Hk. unfold range.
  rewrite nth_indep with (d' := Z.of_nat 0) by now rewrite length_map, length_seq.
  rewrite map_nth, seq_nth by assumption. reflexivity.
Qed.

(** A pure loop that only appends computes a [flat_map]. *)
Lemma fold_left_extend {A B : Type} (g : list B -> A -> list B)
  (f : A -> list B) (xs : list A) :
  (forall acc x, In x xs -> g acc x = acc ++ f x) ->
  forall acc, fold_left g xs acc = acc ++ flat_map f xs.
Proof.
  induction xs as [ | x xs IH]; intros Hg acc; simpl.
  - now rewrite app_nil_r.
  - rewrite Hg by now left.
    rewrite IH by (intros; apply Hg; now right).
    now rewrite app_assoc.
Qed.

(** The same for a loop that may raise but does not. *)
Lemma for_each_extend {A B : Type} (body : A -> list B -> result (list B))
  (f : A -> list B) (xs : list A) :
  (forall acc x, In x xs -> body x acc = Ok (acc ++ f x)) ->
  forall acc, for_each xs body acc = Ok (acc ++ flat_map f xs).
Proof.
  induction xs as [ | x xs IH]; intros Hb acc; simpl.
  - now rewrite app_nil_r.
  - rewrite Hb by now left.
    rewrite IH by (intros; apply Hb; now right).
    now rewrite app_assoc.
Qed.

Lemma length_flat_map_const {A B : Type} (f : A -> list B) (c : nat)
  (xs : list A) :
  (forall x, In x xs -> List.length (f x) = c) ->
  List.length (flat_map f xs) = (c * List.length xs)%nat.
Proof.
  induction xs as [ | x xs IH]; intros Hf; simpl.
  - lia.
  - rewrite length_app, Hf by now left.
    rewrite IH by (intros; apply Hf; now right). lia.
Qed.

(** ** The index list *)

Lemma extend_cell_spec (N lat lon : Z) (indices : list Z) :
  extend_cell N lat lon indices = indices ++ spec_cell N lat lon.
Proof. unfold extend_cell, spec_cell. now rewrite <- app_assoc. Qed.

Lemma generate_indices_spec (L N : Z) (indices : list Z) :
  generate_indices L N indices = indices ++ spec_indices L N.
Proof.
  unfold generate_indices, spec_indices.
  apply fold_left_extend. intros acc lat _.
  apply fold_left_extend. intros acc' lon _.
  apply extend_cell_spec.
Qed.

Lemma length_spec_indices (L N : Z) :
  List.length (spec_indices L N) = (6 * Z.to_nat N * Z.to_nat L)%nat.
Proof.
  unfold spec_indices.
  rewrite length_flat_map_const with (c := (6 * Z.to_nat N)%nat).
  - now rewrite length_range.
  - intros lat _.
    rewrite length_flat_map_const with (c := 6%nat).
    + now rewrite length_range.
    + reflexivity.
Qed.

Lemma in_spec_indices (L N i : Z) :
  In i (spec_indices L N) ->
  exists lat lon, 0 <= lat < L /\ 0 <= lon < N /\ In i (spec_cell N lat lon).
Proof.
  unfold spec_indices. intros Hi.
  apply in_flat_map in Hi. destruct Hi as (lat & Hlat & Hi).
  apply in_flat_map in Hi. destruct Hi as (lon & Hlon & Hi).
  exists lat, lon. rewrite in_range in Hlat, Hlon. auto.
Qed.

Lemma spec_indices_in (L N lat lon i : Z) :
  0 <= lat < L -> 0 <= lon < N -> In i (spec_cell N lat lon) ->
  In i (spec_indices L N).
Proof.
  intros Hlat Hlon Hi. unfold spec_indices.
  apply in_flat_map. exists lat. split; [ now apply in_range | ].
  apply in_flat_map. exists lon. split; [ now apply in_range | exact Hi ].
Qed.

Lemma spec_cell_bounds (L N lat lon i : Z) :
  0 <= lat < L -> 0 <= lon < N -> In i (spec_cell N lat lon) ->
  0 <= i <= L * (N + 1) + N - 1 + 1.
Proof.
  intros Hlat Hlon Hi.
  assert (Hl : lat * (N + 1) <= (L - 1) * (N + 1)) by nia.
  assert (H0 : 0 <= lat * (N + 1)) by nia.
  unfold spec_cell in Hi. simpl in Hi.
  repeat (destruct Hi as [<- | Hi]; [ lia | ]). contradiction.
Qed.

(** ** The vertex list *)

Section Tessellation.

Context {F : Type} {ops : PyFloat F}.

Lemma truediv_int_ok (x : F) (n : Z) :
  n <> 0 -> truediv_int x n = Ok (fdiv x (of_int n)).
Proof.
  intros Hn. unfold truediv_int.
  destruct (Z.eqb_spec n 0); [ contradiction | reflexivity ].
Qed.

Lemma truediv_int_zero (x : F) : truediv_int x 0 = Raise ZeroDivisionError.
Proof. reflexivity. Qed.

(** One latitude with a longitude count other than zero: the row is
    appended. *)
Lemma generate_row_ok (radius : F) (L N lat : Z) (vertices : list F) :
  N <> 0 ->
  generate_row radius N
    (math_sin (fdiv (fmul (of_int lat) math_pi) (of_int L)))
    (math_cos (fdiv (fmul (of_int lat) math_pi) (of_int L))) vertices
  = Ok (vertices
          ++ flat_map
               (fun lon => let '(x, y, z) := grid_vertex radius L N lat lon in
                           [x; y; z])
               (range (N + 1))).
Proof.
  intros HN. unfold generate_row.
  apply for_each_extend. intros acc lon _.
  rewrite truediv_int_ok by assumption. reflexivity.
Qed.

(** One latitude with a longitude count of zero: the first [phi] raises. *)
Lemma generate_row_zero (radius sin_theta cos_theta : F) (vertices : list F) :
  generate_row radius 0 sin_theta cos_theta vertices = Raise ZeroDivisionError.
Proof. reflexivity. Qed.

Lemma generate_vertices_ok (radius : F) (L N : Z) (vertices : list F) :
  L <> 0 -> N <> 0 ->
  generate_vertices radius L N vertices
  = Ok (vertices ++ grid_vertices radius L N).
Proof.
  intros HL HN. unfold generate_vertices, grid_vertices.
  apply for_each_extend. intros acc lat _.
  rewrite truediv_int_ok by assumption. simpl.
  now apply generate_row_ok.
Qed.

Lemma generate_vertices_lat_zero (radius : F) (N : Z) (vertices : list F) :
  generate_vertices radius 0 N vertices = Raise ZeroDivisionError.
Proof. reflexivity. Qed.

Lemma generate_vertices_lon_zero (radius : F) (L : Z) (vertices : list F) :
  1 <= L ->
  generate_vertices radius L 0 vertices = Raise ZeroDivisionError.
Proof.
  intros HL. unfold generate_vertices.
  destruct (range_first (L + 1)) as [tl ->]; [ lia | ].
  simpl. rewrite truediv_int_ok by lia. reflexivity.
Qed.

Lemma generate_vertices_lat_negative (radius : F) (L N : Z)
  (vertices : list F) :
  L < 0 -> generate_vertices radius L N vertices = Ok vertices.
Proof.
  intros HL. unfold generate_vertices.
  rewrite range_nonpos by lia. reflexivity.
Qed.

Lemma grid_vertices_lon_negative (radius : F) (L N : Z) :
  N < 0 -> grid_vertices radius L N = [].
Proof.
  intros HN. unfold grid_vertices.
  rewrite (range_nonpos (N + 1)) by lia. simpl.
  induction (range (L + 1)) as [ | lat l IH]; [ reflexivity | exact IH ].
Qed.

Lemma grid_vertices_lat_negative (radius : F) (L N : Z) :
  L < 0 -> grid_vertices radius L N = [].
Proof.
  intros HL. unfold grid_vertices.
  now rewrite (range_nonpos (L + 1)) by lia.
Qed.

(** The outcome of [generate_sphere] for every pair of segment counts. *)
Lemma generate_sphere_ok (radius : F) (L N : Z) :
  L <> 0 -> N <> 0 ->
  generate_sphere radius L N
  = Ok (grid_vertices radius L N, spec_indices L N).
Proof.
  intros HL HN. unfold generate_sphere.
  rewrite generate_vertices_ok by assumption. simpl.
  now rewrite generate_indices_spec.
Qed.

Lemma generate_sphere_lat_zero (radius : F) (N : Z) :
  generate_sphere radius 0 N = Raise ZeroDivisionError.
Proof. reflexivity. Qed.

Lemma generate_sphere_lon_zero (radius : F) (L : Z) :
  1 <= L -> generate_sphere radius L 0 = Raise ZeroDivisionError.
Proof.
  intros HL. unfold generate_sphere.
  now rewrite generate_vertices_lon_zero.
Qed.

Lemma generate_sphere_lat_negative (radius : F) (L N : Z) :
  L < 0 -> generate_sphere radius L N = Ok ([], []).
Proof.
  intros HL. unfold generate_sphere.
  rewrite generate_vertices_lat_negative by assumption. simpl.
  rewrite generate_indices_spec. unfold spec_indices.
  now rewrite (range_nonpos L) by lia.
Qed.

Lemma generate_sphere_lon_negative (radius : F) (L N : Z) :
  L <> 0 -> N < 0 -> generate_sphere radius L N = Ok ([], []).
Proof.
  intros HL HN. rewrite generate_sphere_ok by lia.
  rewrite grid_vertices_lon_negative by assumption.
  unfold spec_indices. rewrite (range_nonpos N) by lia. simpl.
  induction (range L) as [ | lat l IH]; [ reflexivity | exact IH ].
Qed.

Lemma length_grid_vertices (radius : F) (L N : Z) :
  List.length (grid_vertices radius L N)
  = (3 * Z.to_nat (N + 1) * Z.to_nat (L + 1))%nat.
Proof.
  unfold grid_vertices.
  rewrite length_flat_map_const with (c := (3 * Z.to_nat (N + 1))%nat).
  - now rewrite length_range.
  - intros lat _.
    rewrite length_flat_map_const with (c := 3%nat).
    + now rewrite length_range.
    + intros lon _. destruct (grid_vertex radius L N lat lon) as [[x y] z].
      reflexivity.
Qed.

End Tessellation.

(** ** Where a cell sits in the index list *)

Lemma flat_map_chunk {A B : Type} (f : A -> list B) (c : nat) (xs : list A)
  (d : A) :
  (forall x, List.length (f x) = c) ->
  forall k, (k < List.length xs)%nat ->
  firstn c (skipn (c * k) (flat_map f xs)) = f (nth k xs d).
Proof.
  intros Hf. induction xs as [ | x xs IH]; intros k Hk; simpl in Hk.
  - lia.
  - destruct k as [ | k]; simpl flat_map.
    + rewrite Nat.mul_0_r. simpl skipn.
      rewrite firstn_app, Hf, Nat.sub_diag. simpl.
      rewrite app_nil_r. rewrite <- (Hf x). apply firstn_all.
    + replace (c * S k)%nat with (List.length (f x) + c * k)%nat
        by (rewrite Hf; lia).
      rewrite skipn_app, Nat.add_comm, Nat.add_sub.
      rewrite skipn_all2 by lia. simpl.
      apply IH. lia.
Qed.

(** The same in a grid: rows of [cols] cells of [c] entries each. *)
Lemma grid_chunk {B : Type} (cell : Z -> Z -> list B) (c : nat)
  (rows cols lat lon : Z) :
  (forall a b, List.length (cell a b) = c) ->
  0 <= lat < rows -> 0 <= lon < cols ->
  firstn c
    (skipn (c * Z.to_nat (lat * cols + lon))
       (flat_map (fun a => flat_map (cell a) (range cols)) (range rows)))
  = cell lat lon.
Proof.
  intros Hc Hlat Hlon.
  set (row := fun a => flat_map (cell a) (range cols)).
  assert (Hrow : forall a, List.length (row a) = (c * Z.to_nat cols)%nat).
  { intros a. unfold row.
    rewrite length_flat_map_const with (c := c) by (intros; apply Hc).
    now rewrite length_range. }
  assert (Hcell : firstn (c * Z.to_nat cols)
                    (skipn (c * Z.to_nat cols * Z.to_nat lat)
                       (flat_map row (range rows)))
                  = row lat).
  { rewrite (flat_map_chunk row (c * Z.to_nat cols) (range rows) 0 Hrow)
      by (rewrite length_range; lia).
    rewrite nth_range by lia. now rewrite Z2Nat.id by lia. }
  replace (c * Z.to_nat (lat * cols + lon))%nat
    with (c * Z.to_nat lon + c * Z.to_nat cols * Z.to_nat lat)%nat by nia.
  rewrite <- skipn_skipn.
  transitivity (firstn c (skipn (c * Z.to_nat lon) (row lat))).
  - rewrite <- Hcell. rewrite skipn_firstn_comm, firstn_firstn.
    f_equal. nia.
  - unfold row.
    rewrite (flat_map_chunk (cell lat) c (range cols) 0 (Hc lat))
      by (rewrite length_range; lia).
    rewrite nth_range by lia. now rewrite Z2Nat.id by lia.
Qed.

Lemma spec_indices_cell (L N lat lon : Z) :
  0 <= lat < L -> 0 <= lon < N ->
  firstn 6 (skipn (Z.to_nat (6 * (lat * N + lon))) (spec_indices L N))
  = spec_cell N lat lon.
Proof.
  intros Hlat Hlon.
  replace (Z.to_nat (6 * (lat * N + lon)))
    with (6 * Z.to_nat (lat * N + lon))%nat by nia.
  unfold spec_indices.
  now apply (grid_chunk (spec_cell N) 6 L N lat lon).
Qed.

(** ** The claims on [generate_sphere] *)

Section Mesh.

Context {F : Type} {ops : PyFloat F}.

Lemma len_grid_vertices (radius : F) (L N : Z) :
  0 <= L + 1 -> 0 <= N + 1 ->
  len (grid_vertices radius L N) = 3 * (L + 1) * (N + 1).
Proof. intros HL HN. unfold len. rewrite length_grid_vertices. nia. Qed.

Lemma vertex_count_grid (radius : F) (L N : Z) :
  0 <= L + 1 -> 0 <= N + 1 ->
  len (grid_vertices radius L N) / 3 = (L + 1) * (N + 1).
Proof.
  intros HL HN. rewrite len_grid_vertices by assumption.
  replace (3 * (L + 1) * (N + 1)) with ((L + 1) * (N + 1) * 3) by ring.
  apply Z.div_mul. discriminate.
Qed.

Lemma len_spec_indices (L N : Z) :
  0 <= L -> 0 <= N -> len (spec_indices L N) = L * N * 6.
Proof. intros HL HN. unfold len. rewrite length_spec_indices. nia. Qed.

(** C1.  For segment counts [L >= 1] and [N >= 1] (and any radius, positive
    or not), [generate_sphere] returns a mesh whose flat coordinate list has
    [3*(L+1)*(N+1)] entries, that is [(L+1)*(N+1)] vertices as the scripts
    count them ([len(vertices) // 3]), and whose index list has [L*N*6]
    entries. *)
Theorem generate_sphere_counts (radius : F) (L N : Z) :
  1 <= L -> 1 <= N ->
  exists vertices indices,
    generate_sphere radius L N = Ok (vertices, indices)
    /\ len vertices = 3 * (L + 1) * (N + 1)
    /\ len vertices / 3 = (L + 1) * (N + 1)
    /\ len indices = L * N * 6.
Proof.
  intros HL HN.
  exists (grid_vertices radius L N), (spec_indices L N).
  split; [ apply generate_sphere_ok; lia | ].
  split; [ apply len_grid_vertices; lia | ].
  split; [ apply vertex_count_grid; lia | apply len_spec_indices; lia ].
Qed.

(** C2.  For [L >= 1] and [N >= 1] every index of the returned mesh lies in
    [[0, vertex_count)], where [vertex_count = len(vertices) // 3
    = (L+1)*(N+1)]; the value [L*(N+1) + N - 1 + 1] occurs in the list, no
    index exceeds it, and it is below [(L+1)*(N+1)]. *)
Theorem generate_sphere_indices_in_range (radius : F) (L N : Z) :
  1 <= L -> 1 <= N ->
  exists vertices indices,
    generate_sphere radius L N = Ok (vertices, indices)
    /\ len vertices / 3 = (L + 1) * (N + 1)
    /\ (forall i, In i indices -> 0 <= i < len vertices / 3)
    /\ In (L * (N + 1) + N - 1 + 1) indices
    /\ (forall i, In i indices -> i <= L * (N + 1) + N - 1 + 1)
    /\ L * (N + 1) + N - 1 + 1 < (L + 1) * (N + 1).
Proof.
  intros HL HN.
  exists (grid_vertices radius L N), (spec_indices L N).
  assert (Hcount : len (grid_vertices radius L N) / 3 = (L + 1) * (N + 1))
    by (apply vertex_count_grid; lia).
  assert (Hall : forall i, In i (spec_indices L N) ->
                           0 <= i <= L * (N + 1) + N - 1 + 1).
  { intros i Hi. apply in_spec_indices in Hi.
    destruct Hi as (lat & lon & Hlat & Hlon & Hi).
    now apply (spec_cell_bounds L N lat lon). }
  split; [ apply generate_sphere_ok; lia | ].
  split; [ exact Hcount | ].
  split; [ | split; [ | split ] ].
  - intros i Hi. rewrite Hcount. apply Hall in Hi. lia.
  - apply (spec_indices_in L N (L - 1) (N - 1)); try lia.
    unfold spec_cell. simpl.
    do 4 right. left. ring.
  - intros i Hi. apply Hall in Hi. lia.
  - lia.
Qed.

(** C3.  For [L >= 1] and [N >= 1] the returned index list is the one of the
    specification: the cells taken with [lat] over [[0, L)] outside and
    [lon] over [[0, N)] inside, each cell contributing
    [first, second, first+1] and then [second, second+1, first+1], where
    [first = lat*(N+1) + lon] and [second = first + N + 1].  In positions:
    the list has [6*L*N] entries and the six entries from offset
    [6*(lat*N + lon)] on are those of the cell [(lat, lon)]. *)
Theorem generate_sphere_index_order (radius : F) (L N : Z) :
  1 <= L -> 1 <= N ->
  exists vertices indices,
    generate_sphere radius L N = Ok (vertices, indices)
    /\ indices = spec_indices L N
    /\ len indices = 6 * L * N
    /\ forall lat lon, 0 <= lat < L -> 0 <= lon < N ->
         let first := lat * (N + 1) + lon in
         let second := first + N + 1 in
         firstn 6 (skipn (Z.to_nat (6 * (lat * N + lon))) indices)
         = [first; second; first + 1; second; second + 1; first + 1].
Proof.
  intros HL HN.
  exists (grid_vertices radius L N), (spec_indices L N).
  split; [ apply generate_sphere_ok; lia | ].
  split; [ reflexivity | ].
  split; [ rewrite len_spec_indices; lia | ].
  intros lat lon Hlat Hlon. cbv zeta.
  rewrite spec_indices_cell by assumption. reflexivity.
Qed.

(** C7, as the code has it.  [generate_sphere] checks none of its
    parameters.  For segment counts in the range of a float it raises only
    by the division by a zero segment count: when [latitude_segments = 0],
    or when [longitude_segments = 0] and [latitude_segments >= 1].
    Otherwise it returns a mesh whatever the radius: the full grid when
    both counts are at least 1, and two empty lists when a count is
    negative. *)
Theorem generate_sphere_no_validation (radius : F) (L N : Z) :
  small_count L -> small_count N ->
  match generate_sphere radius L N with
  | Raise e => e = ZeroDivisionError /\ (L = 0 \/ (1 <= L /\ N = 0))
  | Ok (vertices, indices) =>
      (1 <= L /\ 1 <= N
       /\ len vertices = 3 * (L + 1) * (N + 1) /\ len indices = L * N * 6)
      \/ ((L < 0 \/ (1 <= L /\ N < 0)) /\ vertices = [] /\ indices = [])
  end.
Proof.
  intros _ _.
  destruct (Z.lt_trichotomy L 0) as [HL | [HL | HL]].
  - rewrite generate_sphere_lat_negative by assumption. right. auto.
  - subst L. rewrite generate_sphere_lat_zero. auto.
  - destruct (Z.lt_trichotomy N 0) as [HN | [HN | HN]].
    + rewrite generate_sphere_lon_negative by lia. right.
      split; [ right; lia | auto ].
    + subst N. rewrite generate_sphere_lon_zero by lia.
      split; [ reflexivity | right; lia ].
    + rewrite generate_sphere_ok by lia. left.
      split; [ lia | ]. split; [ lia | ].
      split; [ apply len_grid_vertices; lia | apply len_spec_indices; lia ].
Qed.

(** C10, as the code has it.  For segment counts in the range of a float,
    [generate_sphere] raises [ZeroDivisionError] when
    [latitude_segments = 0] (the division of [theta]) and when
    [longitude_segments = 0] with [latitude_segments >= 1] (the division of
    [phi]), and in no other case; with [longitude_segments = 0] and a
    negative [latitude_segments] it returns two empty lists, and with both
    counts at least 1 it returns a mesh. *)
Theorem generate_sphere_raises_iff (radius : F) (L N : Z) :
  small_count L -> small_count N ->
  (generate_sphere radius L N = Raise ZeroDivisionError
   <-> L = 0 \/ (N = 0 /\ 1 <= L))
  /\ (N = 0 /\ L < 0 -> generate_sphere radius L N = Ok ([], []))
  /\ (1 <= L /\ 1 <= N ->
      exists mesh, generate_sphere radius L N = Ok mesh).
Proof.
  intros _ _.
  destruct (Z.eq_dec L 0) as [-> | HL].
  - rewrite generate_sphere_lat_zero.
    split; [ split; auto | ]. split; [ lia | lia ].
  - destruct (Z.eq_dec N 0) as [-> | HN].
    + destruct (Z.lt_ge_cases L 0) as [Hneg | Hpos].
      * rewrite generate_sphere_lat_negative by assumption.
        split; [ split; [ discriminate | lia ] | ].
        split; [ reflexivity | lia ].
      * rewrite generate_sphere_lon_zero by lia.
        split; [ split; [ intros _; right; lia | reflexivity ] | ].
        split; [ lia | lia ].
    + rewrite generate_sphere_ok by assumption.
      split; [ split; [ discriminate | lia ] | ].
      split; [ lia | ]. intros _. eexists; reflexivity.
Qed.

End Mesh.

(** ** Where a vertex sits in the coordinate list *)

Lemma triples_flatten {A : Type} (ts : list (A * A * A)) :
  triples (flat_map (fun '(x, y, z) => [x; y; z]) ts) = ts.
Proof.
  induction ts as [ | [[x y] z] ts IH]; simpl; [ reflexivity | ].
  now rewrite IH.
Qed.

Lemma flat_map_of_map {A B C : Type} (f : B -> list C) (g : A -> B)
  (xs : list A) :
  flat_map f (map g xs) = flat_map (fun x => f (g x)) xs.
Proof.
  induction xs as [ | x xs IH]; simpl; [ reflexivity | now rewrite IH ].
Qed.

Lemma length_triples {A : Type} (n : nat) :
  forall l : list A, List.length l = (3 * n)%nat -> List.length (triples l) = n.
Proof.
  induction n as [ | n IH]; intros l Hl.
  - destruct l; [ reflexivity | simpl in Hl; lia ].
  - destruct l as [ | a [ | b [ | c l]]]; simpl in Hl; try lia.
    simpl. rewrite IH; [ reflexivity | lia ].
Qed.

Section VertexLayout.

Context {F : Type} {ops : PyFloat F}.

Lemma grid_vertices_flatten (radius : F) (L N : Z) :
  grid_vertices radius L N
  = flat_map (fun '(x, y, z) => [x; y; z]) (grid_triples radius L N).
Proof.
  unfold grid_vertices, grid_triples.
  induction (range (L + 1)) as [ | lat lats IH]; cbn [flat_map];
    [ reflexivity | ].
  rewrite flat_map_app, <- IH. f_equal.
  symmetry. apply flat_map_of_map.
Qed.

Lemma triples_grid_vertices (radius : F) (L N : Z) :
  triples (grid_vertices radius L N) = grid_triples radius L N.
Proof. rewrite grid_vertices_flatten. apply triples_flatten. Qed.

Lemma in_grid_triples (radius : F) (L N : Z) (v : F * F * F) :
  In v (grid_triples radius L N) <->
  exists lat lon,
    0 <= lat <= L /\ 0 <= lon <= N /\ v = grid_vertex radius L N lat lon.
Proof.
  unfold grid_triples. rewrite in_flat_map. split.
  - intros (lat & Hlat & Hv). apply in_map_iff in Hv.
    destruct Hv as (lon & <- & Hlon).
    rewrite in_range in Hlat, Hlon. exists lat, lon. repeat split; lia.
  - intros (lat & lon & Hlat & Hlon & ->).
    exists lat. split; [ apply in_range; lia | ].
    apply in_map. apply in_range; lia.
Qed.

(** The vertex of the grid point [(lat, lon)] occupies the three entries
    from offset [3*(lat*(N+1) + lon)] on. *)
Lemma grid_vertices_at (radius : F) (L N lat lon : Z) :
  0 <= lat <= L -> 0 <= lon <= N ->
  firstn 3 (skipn (Z.to_nat (3 * (lat * (N + 1) + lon)))
              (grid_vertices radius L N))
  = let '(x, y, z) := grid_vertex radius L N lat lon in [x; y; z].
Proof.
  intros Hlat Hlon.
  replace (Z.to_nat (3 * (lat * (N + 1) + lon)))
    with (3 * Z.to_nat (lat * (N + 1) + lon))%nat by nia.
  unfold grid_vertices.
  apply (grid_chunk
           (fun lat lon => let '(x, y, z) := grid_vertex radius L N lat lon in
                           [x; y; z])
           3 (L + 1) (N + 1) lat lon); try lia.
  intros a b. destruct (grid_vertex radius L N a b) as [[x y] z]. reflexivity.
Qed.

(** C4.  For every radius and segment counts [L >= 1], [N >= 1], and for
    any float arithmetic: the vertex of the grid point [(lat, lon)], with
    [0 <= lat <= L] and [0 <= lon <= N], occupies the three entries of the
    flat list from offset [3*(lat*(N+1) + lon)] on (latitude outside,
    longitude inside), and these are the products of [r], [sin theta] and
    [cos phi], the product of [r] and [cos theta], and the products of [r],
    [sin theta] and [sin phi], for [theta = lat*pi/L] and
    [phi = lon*2*pi/N], each computed with the operations and in the order
    of lines 11-22: [(r * cos phi) * sin theta], [r * cos theta],
    [(r * sin phi) * sin theta]. *)
Theorem vertex_position (r : F) (L N : Z) :
  1 <= L -> 1 <= N ->
  exists vertices indices,
    generate_sphere r L N = Ok (vertices, indices)
    /\ forall lat lon, 0 <= lat <= L -> 0 <= lon <= N ->
         let theta := fdiv (fmul (of_int lat) math_pi) (of_int L) in
         let phi := fdiv (fmul (of_int (lon * 2)) math_pi) (of_int N) in
         firstn 3 (skipn (Z.to_nat (3 * (lat * (N + 1) + lon))) vertices)
         = [fmul (fmul r (math_cos phi)) (math_sin theta);
            fmul r (math_cos theta);
            fmul (fmul r (math_sin phi)) (math_sin theta)].
Proof.
  intros HL HN.
  exists (grid_vertices r L N), (spec_indices L N).
  split; [ apply generate_sphere_ok; lia | ].
  intros lat lon Hlat Hlon theta phi.
  rewrite grid_vertices_at by assumption. reflexivity.
Qed.

End VertexLayout.

(** A triple of the generated coordinate list is the vertex of a grid
    point. *)
Ltac grid_point H lat lon :=
  rewrite triples_grid_vertices in H;
  apply in_grid_triples in H;
  destruct H as (lat & lon & _ & _ & ->).

(** ** Coordinates in exact arithmetic *)

(** With real numbers for floats the products of lines 20-22 are the
    spherical coordinates in their usual order. *)

Lemma grid_vertex_exact (r : R) (L N lat lon : Z) :
  let theta := (IZR lat * PI / IZR L)%R in
  let phi := (IZR lon * 2 * PI / IZR N)%R in
  grid_vertex r L N lat lon
  = (r * sin theta * cos phi, r * cos theta, r * sin theta * sin phi)%R.
Proof.
  intros theta phi. unfold grid_vertex. simpl.
  rewrite mult_IZR. fold theta. fold phi.
  f_equal; [ f_equal | ]; ring.
Qed.

(** ** The loops that read a flat list three entries at a time *)

Lemma getitem_app {A : Type} (pre post : list A) (k : nat) (x : A) :
  nth_error post k = Some x ->
  getitem (pre ++ post) (len pre + Z.of_nat k) = Ok x.
Proof.
  intros Hx. unfold getitem, len.
  destruct (Z.ltb_spec (Z.of_nat (List.length pre) + Z.of_nat k) 0); [ lia | ].
  destruct (Z.ltb_spec (Z.of_nat (List.length pre) + Z.of_nat k) 0); [ lia | ].
  replace (Z.to_nat (Z.of_nat (List.length pre) + Z.of_nat k))
    with (List.length pre + k)%nat by lia.
  rewrite nth_error_app2 by lia.
  replace (List.length pre + k - List.length pre)%nat with k by lia.
  now rewrite Hx.
Qed.

Lemma range_step_3 (n : nat) :
  range_step (3 * Z.of_nat n) 3 = map (fun k => Z.of_nat k * 3) (seq 0 n).
Proof.
  unfold range_step, range.
  replace ((3 * Z.of_nat n + 3 - 1) / 3) with (Z.of_nat n).
  - rewrite Nat2Z.id, map_map. reflexivity.
  - apply Z.div_unique with (r := 2); lia.
Qed.

Lemma io_bind_eq {A B : Type} (m m' : io A) (k k' : A -> io B) (w : world) :
  m w = m' w -> (forall a w', k a w' = k' a w') ->
  io_bind m k w = io_bind m' k' w.
Proof.
  intros Hm Hk. unfold io_bind. rewrite Hm.
  destruct (m' w) as [[a | e] w']; [ apply Hk | reflexivity ].
Qed.

(** On a list of [3*n] entries the loop
    [for i in range(0, len(l), 3): ... l[i], l[i+1], l[i+2] ...] runs its
    body once for each triple, in order, and no index is out of range. *)
Lemma for_io_triples {A : Type} (k : A -> A -> A -> io unit) (n : nat) :
  forall (pre l : list A) (j : nat) (w : world),
    List.length pre = (3 * j)%nat -> List.length l = (3 * n)%nat ->
    for_io (map (fun i => Z.of_nat i * 3) (seq j n))
      (fun i =>
         x <~ eval (getitem (pre ++ l) i) ;;
         y <~ eval (getitem (pre ++ l) (i + 1)) ;;
         z <~ eval (getitem (pre ++ l) (i + 2)) ;;
         k x y z) w
    = for_io (triples l) (fun '(x, y, z) => k x y z) w.
Proof.
  induction n as [ | n IH]; intros pre l j w Hpre Hl.
  - destruct l; [ reflexivity | simpl in Hl; lia ].
  - destruct l as [ | a [ | b [ | c l]]]; simpl in Hl; try lia.
    cbn [seq map for_io triples]. apply io_bind_eq.
    + unfold io_bind, eval.
      replace (Z.of_nat j * 3) with (len pre + Z.of_nat 0)
        by (unfold len; lia).
      rewrite (getitem_app pre (a :: b :: c :: l) 0 a eq_refl).
      replace (len pre + Z.of_nat 0 + 1) with (len pre + Z.of_nat 1) by lia.
      rewrite (getitem_app pre (a :: b :: c :: l) 1 b eq_refl).
      replace (len pre + Z.of_nat 0 + 2) with (len pre + Z.of_nat 2) by lia.
      rewrite (getitem_app pre (a :: b :: c :: l) 2 c eq_refl).
      reflexivity.
    + intros _ w'.
      replace (pre ++ a :: b :: c :: l) with ((pre ++ [a; b; c]) ++ l)
        by now rewrite <- app_assoc.
      apply IH; [ rewrite length_app; simpl; lia | lia ].
Qed.

Lemma loop_triples {A : Type} (k : A -> A -> A -> io unit) (n : nat)
  (l : list A) (w : world) :
  List.length l = (3 * n)%nat ->
  for_io (range_step (len l) 3)
    (fun i =>
       x <~ eval (getitem l i) ;;
       y <~ eval (getitem l (i + 1)) ;;
       z <~ eval (getitem l (i + 2)) ;;
       k x y z) w
  = for_io (triples l) (fun '(x, y, z) => k x y z) w.
Proof.
  intros Hl. unfold len. rewrite Hl.
  replace (Z.of_nat (3 * n)) with (3 * Z.of_nat n) by lia.
  rewrite range_step_3.
  now apply (for_io_triples k n [] l 0).
Qed.

(** A loop that only writes leaves its lines in the file. *)
Lemma for_io_f_write {A : Type} (line : A -> string) (xs : list A) :
  forall w,
    for_io xs (fun x => f_write (line x)) w
    = (Ok tt, {| stdout := stdout w;
                 fbx_file := fbx_file w ++ map line xs |}).
Proof.
  induction xs as [ | x xs IH]; intros w; simpl.
  - unfold io_ret. destruct w; simpl. now rewrite app_nil_r.
  - unfold io_bind, f_write at 1. rewrite IH. simpl.
    now rewrite <- app_assoc.
Qed.

Lemma for_io_print {A : Type} (line : A -> string) (xs : list A) :
  forall w,
    for_io xs (fun x => print (line x)) w
    = (Ok tt, {| stdout := stdout w ++ map (fun x => (line x ++ nl)%string) xs;
                 fbx_file := fbx_file w |}).
Proof.
  induction xs as [ | x xs IH]; intros w; simpl.
  - unfold io_ret. destruct w; simpl. now rewrite app_nil_r.
  - unfold io_bind, print at 1. rewrite IH. simpl.
    now rewrite <- app_assoc.
Qed.

Lemma for_io_ext {A : Type} (f g : A -> io unit) (xs : list A) :
  (forall x w, f x w = g x w) -> forall w, for_io xs f w = for_io xs g w.
Proof.
  intros Hfg. induction xs as [ | x xs IH]; intros w; simpl.
  - reflexivity.
  - unfold io_bind. rewrite Hfg.
    destruct (g x w) as [[[] | e] w']; [ apply IH | reflexivity ].
Qed.

Lemma io_bind_ok {A B : Type} (m : io A) (k : A -> io B) (a : A)
  (w w' : world) :
  m w = (Ok a, w') -> io_bind m k w = k a w'.
Proof. intros Hm. unfold io_bind. now rewrite Hm. Qed.

Lemma write_all_ok (chunks : list string) (w : world) :
  write_all chunks w
  = (Ok tt, {| stdout := stdout w; fbx_file := fbx_file w ++ chunks |}).
Proof.
  unfold write_all.
  etransitivity; [ exact (for_io_f_write (fun s => s) chunks w) | ].
  now rewrite map_id.
Qed.

Lemma for_io_write_triples {A : Type} (line : A -> A -> A -> string)
  (ts : list (A * A * A)) (w : world) :
  for_io ts (fun '(x, y, z) => f_write (line x y z)) w
  = (Ok tt, {| stdout := stdout w;
               fbx_file := fbx_file w
                             ++ map (fun '(x, y, z) => line x y z) ts |}).
Proof.
  rewrite (for_io_ext _ (fun t => f_write (let '(x, y, z) := t in line x y z))).
  - apply for_io_f_write.
  - intros [[x y] z] w0. reflexivity.
Qed.

(** ** The document *)

Section Document.

Context {F : Type} {ops : PyFloat F}.

(** Lines 201-203 never divide by zero: the division is guarded by
    [length > 0]. *)
Lemma normalize_ok (x y z : F) : normalize x y z = Ok (normal_of (x, y, z)).
Proof.
  unfold normalize, normal_of.
  destruct (gt_zero _) eqn:Hgt; [ | reflexivity ].
  unfold truediv. rewrite (gt_zero_not_zero _ Hgt). reflexivity.
Qed.

Lemma write_vertices_ok (vertices : list F) (vertex_count : Z) (n : nat)
  (w : world) :
  List.length vertices = (3 * n)%nat ->
  write_vertices vertices vertex_count w
  = (Ok tt,
     {| stdout := stdout w;
        fbx_file :=
          fbx_file w
            ++ [("    Vertices: *" ++ str vertex_count ++ " {" ++ nl)%string]
            ++ vertex_lines vertices ++ [("    }" ++ nl)%string] |}).
Proof.
  intros Hlen. unfold write_vertices.
  erewrite io_bind_ok by reflexivity.
  erewrite io_bind_ok.
  2:{ rewrite (loop_triples (fun x y z => f_write (vertex_line x y z)) n)
        by assumption.
      apply for_io_write_triples. }
  unfold f_write, vertex_lines. simpl. now rewrite <- !app_assoc.
Qed.

Lemma write_indices_ok (indices : list Z) (index_count : Z) (n : nat)
  (w : world) :
  List.length indices = (3 * n)%nat ->
  write_indices indices index_count w
  = (Ok tt,
     {| stdout := stdout w;
        fbx_file :=
          fbx_file w
            ++ [("    PolygonVertexIndex: *" ++ str index_count ++ " {"
                   ++ nl)%string]
            ++ index_lines indices ++ [("    }" ++ nl)%string] |}).
Proof.
  intros Hlen. unfold write_indices.
  erewrite io_bind_ok by reflexivity.
  erewrite io_bind_ok.
  2:{ rewrite (loop_triples (fun a b c => f_write (index_line a b c)) n)
        by assumption.
      apply for_io_write_triples. }
  unfold f_write, index_lines. simpl. now rewrite <- !app_assoc.
Qed.

Lemma write_normals_ok (vertices : list F) (vertex_count : Z) (n : nat)
  (w : world) :
  List.length vertices = (3 * n)%nat ->
  write_normals vertices vertex_count w
  = (Ok tt,
     {| stdout := stdout w;
        fbx_file :=
          fbx_file w
            ++ [("    LayerElementNormal: 0 {" ++ nl)%string;
                ("        Normals: *" ++ str vertex_count ++ " {" ++ nl)%string]
            ++ normal_lines vertices
            ++ [("        }" ++ nl)%string; ("    }" ++ nl)%string] |}).
Proof.
  intros Hlen. unfold write_normals.
  erewrite io_bind_ok by reflexivity.
  erewrite io_bind_ok by reflexivity.
  erewrite io_bind_ok.
  2:{ rewrite (loop_triples
                 (fun x y z =>
                    n <~ eval (normalize x y z) ;;
                    let '(x, y, z) := n in f_write (normal_line x y z)) n)
        by assumption.
      rewrite (for_io_ext _
                 (fun v => f_write (let '(x, y, z) := normal_of v in
                                    normal_line x y z))).
      - apply for_io_f_write.
      - intros [[x y] z] w0. unfold io_bind, eval.
        rewrite normalize_ok.
        destruct (normal_of (x, y, z)) as [[x' y'] z']. reflexivity. }
  erewrite io_bind_ok by reflexivity.
  unfold f_write, normal_lines. simpl. now rewrite <- !app_assoc.
Qed.

(** On a mesh whose two lists hold whole triples, lines 48-207 end normally
    and leave [fbx_document] in the file. *)
Lemma write_fbx_ok (vertices : list F) (indices : list Z)
  (vertex_count index_count : Z) (n t : nat) (w : world) :
  List.length vertices = (3 * n)%nat -> List.length indices = (3 * t)%nat ->
  write_fbx vertices indices vertex_count index_count w
  = (Ok tt,
     {| stdout := stdout w;
        fbx_file := fbx_document vertices indices vertex_count index_count |}).
Proof.
  intros Hv Hi. unfold write_fbx.
  erewrite io_bind_ok by reflexivity.
  erewrite io_bind_ok by apply write_all_ok.
  erewrite io_bind_ok by apply (write_vertices_ok _ _ n _ Hv).
  erewrite io_bind_ok by apply (write_indices_ok _ _ t _ Hi).
  erewrite io_bind_ok by reflexivity.
  erewrite io_bind_ok by reflexivity.
  erewrite io_bind_ok by reflexivity.
  erewrite io_bind_ok by apply (write_normals_ok _ _ n _ Hv).
  unfold f_write, open_w, fbx_document. cbn [stdout fbx_file].
  f_equal. f_equal. rewrite <- !app_assoc. reflexivity.
Qed.

Lemma serialize_fbx_ok (vertices : list F) (indices : list Z) (n t : nat)
  (w : world) :
  List.length vertices = (3 * n)%nat -> List.length indices = (3 * t)%nat ->
  serialize_fbx vertices indices w
  = (Ok tt,
     {| stdout :=
          stdout w
            ++ [(("Generated sphere with " ++ str (len vertices / 3)
                    ++ " vertices and " ++ str (len indices) ++ " indices ("
                    ++ str (len indices / 3) ++ " triangles)") ++ nl)%string;
                ("UnitSphere.fbx created successfully!" ++ nl)%string];
        fbx_file :=
          fbx_document vertices indices (len vertices / 3) (len indices) |}).
Proof.
  intros Hv Hi. unfold serialize_fbx.
  erewrite io_bind_ok by reflexivity.
  erewrite io_bind_ok by apply (write_fbx_ok _ _ _ _ n t _ Hv Hi).
  unfold print. cbn [stdout fbx_file].
  f_equal. f_equal. now rewrite <- !app_assoc.
Qed.

Lemma length_vertex_lines (vertices : list F) (n : nat) :
  List.length vertices = (3 * n)%nat -> List.length (vertex_lines vertices) = n.
Proof.
  intros Hv. unfold vertex_lines. rewrite length_map.
  now apply length_triples.
Qed.

Lemma length_normal_lines (vertices : list F) (n : nat) :
  List.length vertices = (3 * n)%nat -> List.length (normal_lines vertices) = n.
Proof.
  intros Hv. unfold normal_lines. rewrite length_map.
  now apply length_triples.
Qed.

End Document.

Lemma length_index_lines (indices : list Z) (n : nat) :
  List.length indices = (3 * n)%nat -> List.length (index_lines indices) = n.
Proof.
  intros Hi. unfold index_lines. rewrite length_map.
  now apply length_triples.
Qed.

(** ** Rendering numbers *)



Lemma append_assoc (s1 s2 s3 : string) :
  ((s1 ++ s2) ++ s3 = s1 ++ s2 ++ s3)%string.
Proof. induction s1 as [ | c s1 IH]; simpl; [ reflexivity | now rewrite IH ]. Qed.








Section Format.

Context {F : Type} {ops : PyFloat F}.


End Format.



(** ** The counts written before the arrays *)

Section Counts.

Context {F : Type} {ops : PyFloat F}.

(** The script [create_sphere_fbx.py] ends normally, with its two console
    lines printed and the document of its mesh in the file. *)
Lemma create_sphere_fbx_ok (w : world) :
  create_sphere_fbx w
  = (Ok tt,
     {| stdout :=
          stdout w
            ++ [(("Generated sphere with " ++ str 561 ++ " vertices and "
                    ++ str 3072 ++ " indices (" ++ str 1024 ++ " triangles)")
                   ++ nl)%string;
                ("UnitSphere.fbx created successfully!" ++ nl)%string];
        fbx_file :=
          fbx_document (grid_vertices (of_int 1) 16 32) (spec_indices 16 32)
            561 3072 |}).
Proof.
  assert (Hv : List.length (grid_vertices (of_int 1) 16 32) = (3 * 561)%nat)
    by (rewrite length_grid_vertices; reflexivity).
  assert (Hi : List.length (spec_indices 16 32) = (3 * 1024)%nat)
    by (rewrite length_spec_indices; reflexivity).
  assert (Hcv : len (grid_vertices (of_int 1) 16 32) / 3 = 561)
    by (unfold len; rewrite Hv; reflexivity).
  assert (Hci : len (spec_indices 16 32) = 3072)
    by (unfold len; rewrite Hi; reflexivity).
  assert (Hct : len (spec_indices 16 32) / 3 = 1024)
    by (rewrite Hci; reflexivity).
  unfold create_sphere_fbx.
  erewrite io_bind_ok
    by (unfold eval; rewrite generate_sphere_ok by discriminate; reflexivity).
  cbv beta iota.
  etransitivity; [ exact (serialize_fbx_ok _ _ 561 1024 w Hv Hi) | ].
  rewrite Hcv, Hct, Hci. reflexivity.
Qed.

(** For segment counts of at least 1 the script body ends normally on the
    generated mesh and leaves its document in the file. *)
Lemma serialize_generated (radius : F) (L N : Z) (w : world) :
  1 <= L -> 1 <= N ->
  exists out,
    serialize_fbx (grid_vertices radius L N) (spec_indices L N) w = (Ok tt, out)
    /\ fbx_file out
       = fbx_document (grid_vertices radius L N) (spec_indices L N)
           (len (grid_vertices radius L N) / 3) (len (spec_indices L N)).
Proof.
  intros HL HN. eexists. split.
  - apply (serialize_fbx_ok _ _ (Z.to_nat (N + 1) * Z.to_nat (L + 1))
             (2 * Z.to_nat N * Z.to_nat L) w).
    + rewrite length_grid_vertices. lia.
    + rewrite length_spec_indices. lia.
  - reflexivity.
Qed.

(** C6, as the code has it.  For segment counts [L >= 1] and [N >= 1] the
    script body writes the document [fbx_document], in which the count
    before the vertex array and the count before the normals array are
    [len(vertices) // 3], the number of lines of each of these arrays, and
    the count before the index array is [len(indices)], the number of
    indices: three times the number of lines of the index array. *)
Theorem declared_counts (radius : F) (L N : Z) :
  1 <= L -> 1 <= N ->
  exists vertices indices,
    generate_sphere radius L N = Ok (vertices, indices)
    /\ (forall w,
           exists out,
             serialize_fbx vertices indices w = (Ok tt, out)
             /\ fbx_file out
                = fbx_document vertices indices (len vertices / 3)
                    (len indices))
    /\ len vertices / 3 = len (vertex_lines vertices)
    /\ len vertices / 3 = len (normal_lines vertices)
    /\ len indices = 3 * len (index_lines indices).
Proof.
  intros HL HN.
  exists (grid_vertices radius L N), (spec_indices L N).
  set (n := (Z.to_nat (N + 1) * Z.to_nat (L + 1))%nat).
  set (t := (2 * Z.to_nat N * Z.to_nat L)%nat).
  assert (Hv : List.length (grid_vertices radius L N) = (3 * n)%nat)
    by (rewrite length_grid_vertices; unfold n; lia).
  assert (Hi : List.length (spec_indices L N) = (3 * t)%nat)
    by (rewrite length_spec_indices; unfold t; lia).
  split; [ apply generate_sphere_ok; lia | ].
  split; [ | split; [ | split ] ].
  - intros w. now apply serialize_generated.
  - unfold len. rewrite (length_vertex_lines _ n Hv), Hv.
    rewrite Nat2Z.inj_mul, Z.mul_comm. apply Z.div_mul. discriminate.
  - unfold len. rewrite (length_normal_lines _ n Hv), Hv.
    rewrite Nat2Z.inj_mul, Z.mul_comm. apply Z.div_mul. discriminate.
  - unfold len. rewrite (length_index_lines _ t Hi), Hi. lia.
Qed.

End Counts.

(** ** The shape of the data lines *)


(** ** [generate_sphere.py]: the printed mesh *)

Lemma for_io_print_triples {A : Type} (line : A -> A -> A -> string)
  (ts : list (A * A * A)) (w : world) :
  for_io ts (fun '(x, y, z) => print (line x y z)) w
  = (Ok tt,
     {| stdout :=
          stdout w ++ map (fun '(x, y, z) => (line x y z ++ nl)%string) ts;
        fbx_file := fbx_file w |}).
Proof.
  rewrite (for_io_ext _ (fun t => print (let '(x, y, z) := t in line x y z))).
  - rewrite for_io_print. do 3 f_equal.
    apply map_ext. intros [[x y] z]. reflexivity.
  - intros [[x y] z] w0. reflexivity.
Qed.

Section Printed.

Context {F : Type} {ops : PyFloat F}.

(** The lines the loops of lines 47-48 and 61-62 print. *)
Lemma print_triples_ok (vertices : list F) (n : nat) (w : world) :
  List.length vertices = (3 * n)%nat ->
  print_triples vertices w
  = (Ok tt,
     {| stdout :=
          stdout w
            ++ map (fun '(x, y, z) => (printed_vertex x y z ++ nl)%string)
                 (triples vertices);
        fbx_file := fbx_file w |}).
Proof.
  intros Hlen. unfold print_triples.
  rewrite (loop_triples (fun x y z => print (printed_vertex x y z)) n)
    by assumption.
  apply for_io_print_triples.
Qed.

End Printed.

(** ** The normals *)

Section Normals.

Context {F : Type} {ops : PyFloat F}.


End Normals.

(** ** The claims at the parameters of the scripts *)

Lemma generate_sphere_counts_witness :
  exists vertices indices,
    generate_sphere 1%R 16 32 = Ok (vertices, indices)
    /\ len vertices = 3 * (16 + 1) * (32 + 1)
    /\ len vertices / 3 = (16 + 1) * (32 + 1)
    /\ len indices = 16 * 32 * 6.
Proof. apply (generate_sphere_counts 1%R 16 32); lia. Defined.

Lemma generate_sphere_indices_in_range_witness :
  exists vertices indices,
    generate_sphere 1%R 16 32 = Ok (vertices, indices)
    /\ len vertices / 3 = (16 + 1) * (32 + 1)
    /\ (forall i, In i indices -> 0 <= i < len vertices / 3)
    /\ In (16 * (32 + 1) + 32 - 1 + 1) indices
    /\ (forall i, In i indices -> i <= 16 * (32 + 1) + 32 - 1 + 1)
    /\ 16 * (32 + 1) + 32 - 1 + 1 < (16 + 1) * (32 + 1).
Proof. apply (generate_sphere_indices_in_range 1%R 16 32); lia. Defined.

Lemma generate_sphere_index_order_witness :
  exists vertices indices,
    generate_sphere 1%R 16 32 = Ok (vertices, indices)
    /\ indices = spec_indices 16 32
    /\ len indices = 6 * 16 * 32
    /\ forall lat lon, 0 <= lat < 16 -> 0 <= lon < 32 ->
         let first := lat * (32 + 1) + lon in
         let second := first + 32 + 1 in
         firstn 6 (skipn (Z.to_nat (6 * (lat * 32 + lon))) indices)
         = [first; second; first + 1; second; second + 1; first + 1].
Proof. apply (generate_sphere_index_order 1%R 16 32); lia. Defined.

Lemma generate_sphere_no_validation_witness :
  match generate_sphere 0%R 1 1 with
  | Raise e => e = ZeroDivisionError /\ (1 = 0 \/ (1 <= 1 /\ 1 = 0))
  | Ok (vertices, indices) =>
      (1 <= 1 /\ 1 <= 1
       /\ len vertices = 3 * (1 + 1) * (1 + 1) /\ len indices = 1 * 1 * 6)
      \/ ((1 < 0 \/ (1 <= 1 /\ 1 < 0)) /\ vertices = [] /\ indices = [])
  end.
Proof.
  apply (generate_sphere_no_validation 0%R 1 1); reflexivity.
Defined.

Lemma generate_sphere_raises_iff_witness :
  (generate_sphere 1%R 16 0 = Raise ZeroDivisionError
   <-> 16 = 0 \/ (0 = 0 /\ 1 <= 16))
  /\ (0 = 0 /\ 16 < 0 -> generate_sphere 1%R 16 0 = Ok ([], []))
  /\ (1 <= 16 /\ 1 <= 0 ->
      exists mesh, generate_sphere 1%R 16 0 = Ok mesh).
Proof.
  apply (generate_sphere_raises_iff 1%R 16 0); reflexivity.
Defined.

Lemma vertex_position_witness :
  exists vertices indices,
    generate_sphere 1%R 16 32 = Ok (vertices, indices)
    /\ forall lat lon, 0 <= lat <= 16 -> 0 <= lon <= 32 ->
         let theta := fdiv (fmul (of_int lat) math_pi) (of_int 16) in
         let phi := fdiv (fmul (of_int (lon * 2)) math_pi) (of_int 32) in
         firstn 3 (skipn (Z.to_nat (3 * (lat * (32 + 1) + lon))) vertices)
         = [fmul (fmul 1%R (math_cos phi)) (math_sin theta);
            fmul 1%R (math_cos theta);
            fmul (fmul 1%R (math_sin phi)) (math_sin theta)].
Proof. apply (vertex_position 1%R 16 32); lia. Defined.


Lemma declared_counts_witness :
  exists vertices indices,
    generate_sphere 1%R 16 32 = Ok (vertices, indices)
    /\ (forall w,
           exists out,
             serialize_fbx vertices indices w = (Ok tt, out)
             /\ fbx_file out
                = fbx_document vertices indices (len vertices / 3)
                    (len indices))
    /\ len vertices / 3 = len (vertex_lines vertices)
    /\ len vertices / 3 = len (normal_lines vertices)
    /\ len indices = 3 * len (index_lines indices).
Proof. apply (declared_counts 1%R 16 32); lia. Defined.


(** ** Where the code departs from the specification *)

(** C6, at the mesh of the script: the count written before the index array
    is 3072, and that array has 1024 lines. *)
Lemma index_count_is_not_line_count :
  exists out,
    create_sphere_fbx (F := R) fresh = (Ok tt, out)
    /\ fbx_file out
       = fbx_document (grid_vertices 1%R 16 32) (spec_indices 16 32) 561 3072
    /\ In ("    PolygonVertexIndex: *3072 {" ++ nl)%string (fbx_file out)
    /\ List.length (index_lines (spec_indices 16 32)) = 1024%nat.
Proof.
  eexists. split; [ apply create_sphere_fbx_ok | ].
  cbn [fbx_file]. split; [ reflexivity | ]. split.
  - unfold fbx_document.
    apply in_or_app; right. apply in_or_app; right. apply in_or_app; right.
    apply in_or_app; left. right. left. reflexivity.
  - apply length_index_lines. rewrite length_spec_indices. reflexivity.
Qed.


(** C7, at a radius of zero and at a negative segment count: no error, a
    mesh is returned. *)
Lemma invalid_parameters_are_accepted :
  (exists vertices,
      generate_sphere 0%R 1 1 = Ok (vertices, [0; 2; 1; 2; 3; 1])
      /\ len vertices = 12)
  /\ generate_sphere (-1)%R 1 1
     = Ok (grid_vertices (-1)%R 1 1, [0; 2; 1; 2; 3; 1])
  /\ generate_sphere 1%R (-1) 1 = Ok ([], [])
  /\ generate_sphere 1%R 1 (-1) = Ok ([], []).
Proof.
  split; [ | split; [ | split ] ].
  - exists (grid_vertices 0%R 1 1). split.
    + now rewrite generate_sphere_ok by discriminate.
    + unfold len. now rewrite length_grid_vertices.
  - now rewrite generate_sphere_ok by discriminate.
  - apply generate_sphere_lat_negative. lia.
  - apply generate_sphere_lon_negative; lia.
Qed.

(** C10, at [latitude_segments = -1] and [longitude_segments = 0]: no loop
    body runs, no division is reached, two empty lists are returned. *)
Lemma zero_longitude_without_error :
  generate_sphere 1%R (-1) 0 = Ok ([], []).
Proof. apply generate_sphere_lat_negative. lia. Qed.

(** * Further properties of the code *)

(** ** The triangles of the index list *)

Lemma triples_app {A : Type} (n : nat) :
  forall l1 l2 : list A,
    List.length l1 = (3 * n)%nat ->
    triples (l1 ++ l2) = triples l1 ++ triples l2.
Proof.
  induction n as [ | n IH]; intros l1 l2 Hl.
  - destruct l1; [ reflexivity | simpl in Hl; lia ].
  - destruct l1 as [ | a [ | b [ | c l1]]]; simpl in Hl; try lia.
    cbn [app triples]. rewrite IH by lia. reflexivity.
Qed.

Lemma triples_spec_indices (L N : Z) :
  triples (spec_indices L N)
  = flat_map (fun lat => flat_map (fun lon => cell_triangles N lat lon) (range N))
      (range L).
Proof.
  unfold spec_indices.
  induction (range L) as [ | lat lats IH]; cbn [flat_map]; [ reflexivity | ].
  rewrite (triples_app (2 * List.length (range N))).
  - rewrite IH. f_equal. clear IH.
    induction (range N) as [ | lon lons IHl]; cbn [flat_map];
      [ reflexivity | ].
    rewrite (triples_app 2) by reflexivity. now rewrite IHl.
  - rewrite length_flat_map_const with (c := 6%nat) by reflexivity. lia.
Qed.

Lemma in_spec_triangles (L N : Z) (t : Z * Z * Z) :
  In t (triples (spec_indices L N)) <->
  exists lat lon,
    0 <= lat < L /\ 0 <= lon < N /\ In t (cell_triangles N lat lon).
Proof.
  rewrite triples_spec_indices, in_flat_map. split.
  - intros (lat & Hlat & Ht). apply in_flat_map in Ht.
    destruct Ht as (lon & Hlon & Ht). rewrite in_range in Hlat, Hlon.
    exists lat, lon. auto.
  - intros (lat & lon & Hlat & Hlon & Ht).
    exists lat. split; [ now apply in_range | ].
    apply in_flat_map. exists lon. split; [ now apply in_range | exact Ht ].
Qed.

Lemma grid_point_of_index (N lat lon : Z) :
  0 <= lat -> 0 <= lon <= N ->
  grid_row N (lat * (N + 1) + lon) = lat
  /\ grid_col N (lat * (N + 1) + lon) = lon.
Proof.
  intros Hlat Hlon. unfold grid_row, grid_col. split.
  - symmetry. apply Z.div_unique with (r := lon); lia.
  - symmetry. apply Z.mod_unique with (q := lat); lia.
Qed.

Section Triangles.

Context {F : Type} {ops : PyFloat F}.

(** X1.  For segment counts [L >= 1] and [N >= 1] the index list holds
    [2*L*N] triangles, and the three indices of each triangle are corners
    of one grid cell: read as grid points (row [i // (N+1)], column
    [i % (N+1)]), they lie in the rows [lat, lat+1] and the columns
    [lon, lon+1] of a cell with [lon + 1 <= N], so that no triangle joins the
    last column of a row to the first column of the next. *)
Theorem triangles_are_cell_corners (radius : F) (L N : Z) :
  1 <= L -> 1 <= N ->
  exists vertices indices,
    generate_sphere radius L N = Ok (vertices, indices)
    /\ len (triples indices) = 2 * L * N
    /\ forall a b c, In (a, b, c) (triples indices) ->
         exists lat lon,
           0 <= lat < L /\ 0 <= lon < N
           /\ Forall (fun i => lat <= grid_row N i <= lat + 1
                               /\ lon <= grid_col N i <= lon + 1)
                [a; b; c].
Proof.
  intros HL HN.
  exists (grid_vertices radius L N), (spec_indices L N).
  split; [ apply generate_sphere_ok; lia | ]. split.
  - unfold len.
    rewrite (length_triples (2 * Z.to_nat N * Z.to_nat L)).
    + nia.
    + rewrite length_spec_indices. lia.
  - intros a b c Ht. apply in_spec_triangles in Ht.
    destruct Ht as (lat & lon & Hlat & Hlon & Ht).
    exists lat, lon. split; [ exact Hlat | ]. split; [ exact Hlon | ].
    destruct (grid_point_of_index N lat lon) as [R00 C00]; try lia.
    destruct (grid_point_of_index N lat (lon + 1)) as [R01 C01]; try lia.
    destruct (grid_point_of_index N (lat + 1) lon) as [R10 C10]; try lia.
    destruct (grid_point_of_index N (lat + 1) (lon + 1)) as [R11 C11];
      try lia.
    replace (lat * (N + 1) + (lon + 1)) with (lat * (N + 1) + lon + 1)
      in R01, C01 by ring.
    replace ((lat + 1) * (N + 1) + lon) with (lat * (N + 1) + lon + N + 1)
      in R10, C10 by ring.
    replace ((lat + 1) * (N + 1) + (lon + 1))
      with (lat * (N + 1) + lon + N + 1 + 1) in R11, C11 by ring.
    unfold cell_triangles in Ht. cbv zeta in Ht.
    destruct Ht as [Ht | [Ht | []]]; injection Ht as <- <- <-;
      repeat constructor; lia.
Qed.

(** X2.  For [L >= 1] and [N >= 1] the three indices of every triangle are
    pairwise different. *)
Theorem triangles_have_distinct_indices (radius : F) (L N : Z) :
  1 <= L -> 1 <= N ->
  exists vertices indices,
    generate_sphere radius L N = Ok (vertices, indices)
    /\ forall a b c, In (a, b, c) (triples indices) ->
         a <> b /\ b <> c /\ a <> c.
Proof.
  intros HL HN.
  exists (grid_vertices radius L N), (spec_indices L N).
  split; [ apply generate_sphere_ok; lia | ].
  intros a b c Ht. apply in_spec_triangles in Ht.
  destruct Ht as (lat & lon & Hlat & Hlon & Ht).
  unfold cell_triangles in Ht. cbv zeta in Ht.
  destruct Ht as [Ht | [Ht | []]]; injection Ht as <- <- <-; lia.
Qed.

(** X3.  For [L >= 1] and [N >= 1] every vertex is used: each index of
    [[0, (L+1)*(N+1))] occurs in the index list. *)
Theorem every_vertex_is_indexed (radius : F) (L N : Z) :
  1 <= L -> 1 <= N ->
  exists vertices indices,
    generate_sphere radius L N = Ok (vertices, indices)
    /\ forall i, 0 <= i < len vertices / 3 -> In i indices.
Proof.
  intros HL HN.
  exists (grid_vertices radius L N), (spec_indices L N).
  split; [ apply generate_sphere_ok; lia | ].
  rewrite vertex_count_grid by lia. intros i Hi.
  pose proof (Z.div_mod i (N + 1)) as Hdm.
  pose proof (Z.mod_pos_bound i (N + 1)) as Hm.
  set (lat := i / (N + 1)) in *. set (lon := i mod (N + 1)) in *.
  assert (Hlat : 0 <= lat <= L) by (split; [ apply Z.div_pos; lia | nia ]).
  assert (Hi' : i = lat * (N + 1) + lon) by lia.
  destruct (Z.eq_dec lat L) as [Elat | Nlat];
    destruct (Z.eq_dec lon N) as [Elon | Nlon].
  - apply (spec_indices_in L N (L - 1) (N - 1)); try lia.
    unfold spec_cell. simpl. do 4 right. left. nia.
  - apply (spec_indices_in L N (L - 1) lon); try lia.
    unfold spec_cell. simpl. right. left. nia.
  - apply (spec_indices_in L N lat (N - 1)); try lia.
    unfold spec_cell. simpl. do 2 right. left. nia.
  - apply (spec_indices_in L N lat lon); try lia.
    unfold spec_cell. simpl. left. lia.
Qed.

End Triangles.

(** ** The serializers on any mesh *)

Lemma getitem_past_end {A : Type} (l : list A) (i : Z) :
  len l <= i -> getitem l i = Raise IndexError.
Proof.
  intros Hi. unfold getitem, len in *.
  destruct (Z.ltb_spec i 0); [ lia | ].
  destruct (Z.ltb_spec i 0); [ lia | ].
  destruct (nth_error l (Z.to_nat i)) as [a | ] eqn:E; [ | reflexivity ].
  assert (Hlt : (Z.to_nat i < List.length l)%nat)
    by (apply nth_error_Some; congruence).
  lia.
Qed.

Lemma io_bind_assoc {A B C : Type} (m : io A) (f : A -> io B) (g : B -> io C)
  (w : world) :
  io_bind (io_bind m f) g w = io_bind m (fun a => io_bind (f a) g) w.
Proof.
  unfold io_bind. destruct (m w) as [[a | e] w']; reflexivity.
Qed.

Lemma range_step_3_partial (n : nat) (r : Z) :
  1 <= r <= 2 ->
  range_step (3 * Z.of_nat n + r) 3
  = map (fun k => Z.of_nat k * 3) (seq 0 (S n)).
Proof.
  intros Hr. unfold range_step, range.
  replace ((3 * Z.of_nat n + r + 3 - 1) / 3) with (Z.of_nat (S n)).
  - rewrite Nat2Z.id, map_map. reflexivity.
  - apply Z.div_unique with (r := r - 1); lia.
Qed.

(** On a list that ends with one or two entries after its last whole
    triple, the loop runs its body on the whole triples and then raises
    [IndexError], before the body of the partial one. *)
Lemma for_io_triples_partial {A : Type} (k : A -> A -> A -> io unit)
  (n : nat) :
  forall (pre l : list A) (j : nat) (r : nat) (w : world),
    List.length pre = (3 * j)%nat -> List.length l = (3 * n + r)%nat ->
    (1 <= r <= 2)%nat ->
    for_io (map (fun i => Z.of_nat i * 3) (seq j (S n)))
      (fun i =>
         x <~ eval (getitem (pre ++ l) i) ;;
         y <~ eval (getitem (pre ++ l) (i + 1)) ;;
         z <~ eval (getitem (pre ++ l) (i + 2)) ;;
         k x y z) w
    = (for_io (triples l) (fun '(x, y, z) => k x y z) ;;;
       eval (Raise IndexError)) w.
Proof.
  induction n as [ | n IH]; intros pre l j r w Hpre Hl Hr.
  - assert (Hlast : forall i, Z.of_nat (List.length l) <= i ->
                      getitem (pre ++ l) (Z.of_nat j * 3 + i)
                      = Raise IndexError).
    { intros i Hi. apply getitem_past_end.
      unfold len. rewrite length_app. lia. }
    destruct l as [ | a [ | b [ | c l]]]; simpl in Hl; try lia.
    + cbn [seq map for_io triples]. unfold io_bind, eval, io_ret.
      replace (Z.of_nat j * 3) with (len pre + Z.of_nat 0)
        by (unfold len; lia).
      rewrite (getitem_app pre [a] 0 a eq_refl).
      replace (len pre + Z.of_nat 0 + 1) with (Z.of_nat j * 3 + 1)
        by (unfold len; lia).
      rewrite Hlast by (simpl; lia). reflexivity.
    + cbn [seq map for_io triples]. unfold io_bind, eval, io_ret.
      replace (Z.of_nat j * 3) with (len pre + Z.of_nat 0)
        by (unfold len; lia).
      rewrite (getitem_app pre [a; b] 0 a eq_refl).
      replace (len pre + Z.of_nat 0 + 1) with (len pre + Z.of_nat 1) by lia.
      rewrite (getitem_app pre [a; b] 1 b eq_refl).
      replace (len pre + Z.of_nat 0 + 2) with (Z.of_nat j * 3 + 2)
        by (unfold len; lia).
      rewrite Hlast by (simpl; lia). reflexivity.
  - destruct l as [ | a [ | b [ | c l]]]; simpl in Hl; try lia.
    change (seq j (S (S n))) with (j :: seq (S j) (S n)).
    cbn [map for_io triples].
    etransitivity; [ | symmetry; apply io_bind_assoc ].
    apply io_bind_eq.
    + unfold io_bind, eval.
      replace (Z.of_nat j * 3) with (len pre + Z.of_nat 0)
        by (unfold len; lia).
      rewrite (getitem_app pre (a :: b :: c :: l) 0 a eq_refl).
      replace (len pre + Z.of_nat 0 + 1) with (len pre + Z.of_nat 1) by lia.
      rewrite (getitem_app pre (a :: b :: c :: l) 1 b eq_refl).
      replace (len pre + Z.of_nat 0 + 2) with (len pre + Z.of_nat 2) by lia.
      rewrite (getitem_app pre (a :: b :: c :: l) 2 c eq_refl).
      reflexivity.
    + intros _ w'.
      replace (pre ++ a :: b :: c :: l) with ((pre ++ [a; b; c]) ++ l)
        by now rewrite <- app_assoc.
      apply (IH _ _ _ r); [ rewrite length_app; simpl; lia | lia | lia ].
Qed.

Lemma loop_triples_partial {A : Type} (k : A -> A -> A -> io unit)
  (n r : nat) (l : list A) (w : world) :
  List.length l = (3 * n + r)%nat -> (1 <= r <= 2)%nat ->
  for_io (range_step (len l) 3)
    (fun i =>
       x <~ eval (getitem l i) ;;
       y <~ eval (getitem l (i + 1)) ;;
       z <~ eval (getitem l (i + 2)) ;;
       k x y z) w
  = (for_io (triples l) (fun '(x, y, z) => k x y z) ;;;
     eval (Raise IndexError)) w.
Proof.
  intros Hl Hr. unfold len. rewrite Hl.
  replace (Z.of_nat (3 * n + r)) with (3 * Z.of_nat n + Z.of_nat r) by lia.
  rewrite range_step_3_partial by lia.
  now apply (for_io_triples_partial k n [] l 0 r).
Qed.

Lemma generated_whole_triples {F : Type} {ops : PyFloat F} (radius : F)
  (L N : Z) (vertices : list F) (indices : list Z) :
  generate_sphere radius L N = Ok (vertices, indices) ->
  exists n t,
    List.length vertices = (3 * n)%nat /\ List.length indices = (3 * t)%nat.
Proof.
  intros Hgen.
  destruct (Z.eq_dec L 0) as [-> | HL];
    [ rewrite generate_sphere_lat_zero in Hgen; discriminate | ].
  destruct (Z.eq_dec N 0) as [-> | HN].
  - destruct (Z.lt_ge_cases L 0) as [Hneg | Hpos].
    + rewrite generate_sphere_lat_negative in Hgen by assumption.
      injection Hgen as <- <-. exists 0%nat, 0%nat. split; reflexivity.
    + rewrite generate_sphere_lon_zero in Hgen by lia. discriminate.
  - rewrite generate_sphere_ok in Hgen by assumption.
    injection Hgen as <- <-.
    exists (Z.to_nat (N + 1) * Z.to_nat (L + 1))%nat,
      (2 * Z.to_nat N * Z.to_nat L)%nat.
    rewrite length_grid_vertices, length_spec_indices. split; lia.
Qed.

Lemma ends_with_newline_app (a b : string) :
  ends_with_newline b = true -> ends_with_newline (a ++ b) = true.
Proof.
  intros Hb. induction a as [ | c a IH]; [ exact Hb | ].
  cbn [append ends_with_newline].
  destruct (a ++ b)%string eqn:E; [ | exact IH ].
  destruct a; [ | discriminate ].
  simpl in E. subst b. discriminate.
Qed.

Lemma ends_with_newline_nl : ends_with_newline nl = true.
Proof. reflexivity. Qed.

Ltac whole_line :=
  repeat (apply ends_with_newline_app); exact ends_with_newline_nl.

Section Serializers.

Context {F : Type} {ops : PyFloat F}.

Lemma print_indices_ok (indices : list Z) (t : nat) (w : world) :
  List.length indices = (3 * t)%nat ->
  for_io (range_step (len indices) 3)
    (fun i =>
       a <~ eval (getitem indices i) ;;
       b <~ eval (getitem indices (i + 1)) ;;
       c <~ eval (getitem indices (i + 2)) ;;
       print (printed_index a b c)) w
  = (Ok tt,
     {| stdout := stdout w ++ printed_indices indices;
        fbx_file := fbx_file w |}).
Proof.
  intros Hlen.
  rewrite (loop_triples (fun a b c => print (printed_index a b c)) t)
    by assumption.
  apply for_io_print_triples.
Qed.

Lemma print_mesh_ok (vertices : list F) (indices : list Z) (n t : nat)
  (w : world) :
  List.length vertices = (3 * n)%nat -> List.length indices = (3 * t)%nat ->
  print_mesh vertices indices w
  = (Ok tt,
     {| stdout :=
          stdout w
            ++ [(("Generated sphere with " ++ str (len vertices / 3)
                    ++ " vertices and " ++ str (len indices) ++ " indices ("
                    ++ str (len indices / 3) ++ " triangles)") ++ nl)%string;
                ((nl ++ "Vertices:") ++ nl)%string;
                (("Vertices: *" ++ str (len vertices / 3) ++ " {") ++ nl)%string]
            ++ printed_vertices vertices
            ++ [("}" ++ nl)%string;
                ((nl ++ "PolygonVertexIndex:") ++ nl)%string;
                (("PolygonVertexIndex: *" ++ str (len indices) ++ " {")
                   ++ nl)%string]
            ++ printed_indices indices
            ++ [("}" ++ nl)%string;
                ((nl ++ "Normals:") ++ nl)%string;
                (("Normals: *" ++ str (len vertices / 3) ++ " {") ++ nl)%string]
            ++ printed_vertices vertices
            ++ [("}" ++ nl)%string];
        fbx_file := fbx_file w |}).
Proof.
  intros Hv Hi. unfold print_mesh.
  erewrite io_bind_ok by reflexivity.
  erewrite io_bind_ok by reflexivity.
  erewrite io_bind_ok by reflexivity.
  erewrite io_bind_ok by apply (print_triples_ok _ n _ Hv).
  erewrite io_bind_ok by reflexivity.
  erewrite io_bind_ok by reflexivity.
  erewrite io_bind_ok by reflexivity.
  erewrite io_bind_ok by apply (print_indices_ok _ t _ Hi).
  erewrite io_bind_ok by reflexivity.
  erewrite io_bind_ok by reflexivity.
  erewrite io_bind_ok by reflexivity.
  erewrite io_bind_ok by apply (print_triples_ok _ n _ Hv).
  unfold print, printed_vertices. cbn [stdout fbx_file].
  f_equal. f_equal. rewrite <- !app_assoc. reflexivity.
Qed.

(** X8.  On any mesh whose two lists hold whole triples, the body of
    [create_sphere_fbx.py] ends normally; the file then holds the document
    of the mesh whatever it held before, the console has gained the summary
    line and the completion line, and the triangle count of the summary,
    [len(indices) // 3], is the number of lines of the index array. *)
Theorem serialize_fbx_rewrites_file (vertices : list F) (indices : list Z)
  (n t : nat) (w : world) :
  List.length vertices = (3 * n)%nat -> List.length indices = (3 * t)%nat ->
  exists out,
    serialize_fbx vertices indices w = (Ok tt, out)
    /\ fbx_file out
       = fbx_document vertices indices (len vertices / 3) (len indices)
    /\ stdout out
       = stdout w
           ++ [(("Generated sphere with " ++ str (len vertices / 3)
                   ++ " vertices and " ++ str (len indices) ++ " indices ("
                   ++ str (len indices / 3) ++ " triangles)") ++ nl)%string;
               ("UnitSphere.fbx created successfully!" ++ nl)%string]
    /\ len indices / 3 = len (index_lines indices).
Proof.
  intros Hv Hi. eexists. split; [ apply (serialize_fbx_ok _ _ n t w Hv Hi) | ].
  cbn [stdout fbx_file]. split; [ reflexivity | ]. split; [ reflexivity | ].
  unfold len. rewrite (length_index_lines _ t Hi), Hi.
  rewrite Nat2Z.inj_mul, Z.mul_comm. apply Z.div_mul. discriminate.
Qed.

(** X9.  Whatever mesh [generate_sphere] returns, for any radius and any
    segment counts, negative ones included, both script bodies end normally
    on it: no index of their loops is out of range. *)
Theorem generated_mesh_serializes (radius : F) (L N : Z)
  (vertices : list F) (indices : list Z) (w : world) :
  generate_sphere radius L N = Ok (vertices, indices) ->
  (exists out,
      serialize_fbx vertices indices w = (Ok tt, out)
      /\ fbx_file out
         = fbx_document vertices indices (len vertices / 3) (len indices))
  /\ (exists out,
         print_mesh vertices indices w = (Ok tt, out)
         /\ fbx_file out = fbx_file w).
Proof.
  intros Hgen.
  destruct (generated_whole_triples radius L N vertices indices Hgen)
    as (n & t & Hv & Hi).
  split.
  - eexists. split; [ apply (serialize_fbx_ok _ _ n t w Hv Hi) | reflexivity ].
  - eexists. split; [ apply (print_mesh_ok _ _ n t w Hv Hi) | reflexivity ].
Qed.

(** X10.  When the coordinate list ends with one or two entries after its
    last whole triple, lines 48-207 raise [IndexError] in the vertex loop:
    the file is left with the preamble, the header of the vertex array and
    the lines of the whole triples, without the closing brace or anything
    after it. *)
Theorem partial_triple_truncates_file (vertices : list F) (indices : list Z)
  (vertex_count index_count : Z) (n r : nat) (w : world) :
  List.length vertices = (3 * n + r)%nat -> (1 <= r <= 2)%nat ->
  write_fbx vertices indices vertex_count index_count w
  = (Raise IndexError,
     {| stdout := stdout w;
        fbx_file :=
          fbx_preamble
            ++ [("    Vertices: *" ++ str vertex_count ++ " {" ++ nl)%string]
            ++ vertex_lines vertices |}).
Proof.
  intros Hlen Hr. unfold write_fbx.
  erewrite io_bind_ok by reflexivity.
  erewrite io_bind_ok by apply write_all_ok.
  unfold write_vertices.
  etransitivity; [ apply io_bind_assoc | ].
  erewrite io_bind_ok by reflexivity.
  etransitivity; [ apply io_bind_assoc | ].
  unfold io_bind at 1.
  rewrite (loop_triples_partial (fun x y z => f_write (vertex_line x y z)) n r)
    by assumption.
  unfold io_bind at 1. rewrite for_io_write_triples.
  unfold eval, vertex_lines. cbn [stdout fbx_file app].
  now rewrite <- app_assoc.
Qed.

(** X11.  On any mesh whose two lists hold whole triples,
    [generate_sphere.py] (lines 42-63) ends normally, leaves the FBX file
    untouched and prints, after the summary, three blocks each between a
    title, a counted header and a closing brace; the block under
    [Normals:] repeats the lines of the block under [Vertices:], the
    coordinates being printed again as they are. *)
Theorem print_mesh_blocks (vertices : list F) (indices : list Z)
  (n t : nat) (w : world) :
  List.length vertices = (3 * n)%nat -> List.length indices = (3 * t)%nat ->
  exists out,
    print_mesh vertices indices w = (Ok tt, out)
    /\ fbx_file out = fbx_file w
    /\ stdout out
       = stdout w
           ++ [(("Generated sphere with " ++ str (len vertices / 3)
                   ++ " vertices and " ++ str (len indices) ++ " indices ("
                   ++ str (len indices / 3) ++ " triangles)") ++ nl)%string;
               ((nl ++ "Vertices:") ++ nl)%string;
               (("Vertices: *" ++ str (len vertices / 3) ++ " {") ++ nl)%string]
           ++ printed_vertices vertices
           ++ [("}" ++ nl)%string;
               ((nl ++ "PolygonVertexIndex:") ++ nl)%string;
               (("PolygonVertexIndex: *" ++ str (len indices) ++ " {")
                  ++ nl)%string]
           ++ printed_indices indices
           ++ [("}" ++ nl)%string;
               ((nl ++ "Normals:") ++ nl)%string;
               (("Normals: *" ++ str (len vertices / 3) ++ " {") ++ nl)%string]
           ++ printed_vertices vertices
           ++ [("}" ++ nl)%string]
    /\ len (printed_vertices vertices) = len vertices / 3
    /\ len (printed_indices indices) = len indices / 3.
Proof.
  intros Hv Hi. eexists. split; [ apply (print_mesh_ok _ _ n t w Hv Hi) | ].
  cbn [stdout fbx_file]. split; [ reflexivity | ]. split; [ reflexivity | ].
  unfold len, printed_vertices, printed_indices.
  rewrite !length_map, (length_triples n _ Hv), (length_triples t _ Hi), Hv, Hi.
  rewrite !Nat2Z.inj_mul, !(Z.mul_comm (Z.of_nat 3)), !Z.div_mul by discriminate.
  split; reflexivity.
Qed.

(** X12.  The two scripts render a mesh alike: a data line of the vertex
    array, and of the index array, of the FBX file is the line
    [generate_sphere.py] prints for the same triple, after eight spaces. *)
Theorem fbx_lines_are_printed_lines (vertices : list F) (indices : list Z) :
  vertex_lines vertices
  = map (fun s => ("        " ++ s)%string) (printed_vertices vertices)
  /\ index_lines indices
     = map (fun s => ("        " ++ s)%string) (printed_indices indices).
Proof.
  unfold vertex_lines, index_lines, printed_vertices, printed_indices.
  rewrite !map_map. split; apply map_ext; intros [[a b] c];
    unfold vertex_line, printed_vertex, index_line, printed_index;
    rewrite !append_assoc; reflexivity.
Qed.

(** X13.  Every chunk of the document ends with a newline, so the FBX file
    is made of whole lines, the last one included. *)
Theorem fbx_document_whole_lines (vertices : list F) (indices : list Z)
  (vertex_count index_count : Z) :
  forallb ends_with_newline
    (fbx_document vertices indices vertex_count index_count) = true.
Proof.
  assert (Hpre : forallb ends_with_newline fbx_preamble = true)
    by reflexivity.
  apply forallb_forall. intros s Hs. unfold fbx_document in Hs.
  repeat (apply in_app_or in Hs; destruct Hs as [Hs | Hs]).
  - revert s Hs. now apply forallb_forall.
  - destruct Hs as [<- | []]. whole_line.
  - unfold vertex_lines in Hs. apply in_map_iff in Hs.
    destruct Hs as ([[x y] z] & <- & _). unfold vertex_line. whole_line.
  - destruct Hs as [<- | [<- | []]]; whole_line.
  - unfold index_lines in Hs. apply in_map_iff in Hs.
    destruct Hs as ([[a b] c] & <- & _). unfold index_line. whole_line.
  - destruct Hs as [<- | [<- | [<- | [<- | [<- | [<- | []]]]]]]; whole_line.
  - unfold normal_lines in Hs. apply in_map_iff in Hs.
    destruct Hs as (v & <- & _). destruct (normal_of v) as [[x y] z].
    unfold normal_line. whole_line.
  - destruct Hs as [<- | [<- | [<- | []]]]; whole_line.
Qed.

End Serializers.

(** ** Degenerate and symmetric meshes *)

Section EmptyMesh.

Context {F : Type} {ops : PyFloat F}.

(** X14.  With a negative latitude count [generate_sphere] returns two
    empty lists without an error, and the body of [create_sphere_fbx.py]
    then writes a document whose three arrays are announced with the count
    0 and hold no line. *)
Theorem negative_count_gives_empty_document (radius : F) (L N : Z)
  (w : world) :
  L < 0 ->
  generate_sphere radius L N = Ok ([], [])
  /\ exists out,
       serialize_fbx (@nil F) [] w = (Ok tt, out)
       /\ fbx_file out
          = fbx_preamble
              ++ [("    Vertices: *0 {" ++ nl)%string;
                  ("    }" ++ nl)%string;
                  ("    PolygonVertexIndex: *0 {" ++ nl)%string;
                  ("    }" ++ nl)%string;
                  ("    Edges: *0 {" ++ nl)%string;
                  ("    }" ++ nl)%string;
                  ("    GeometryVersion: 124" ++ nl)%string;
                  ("    LayerElementNormal: 0 {" ++ nl)%string;
                  ("        Normals: *0 {" ++ nl)%string;
                  ("        }" ++ nl)%string;
                  ("    }" ++ nl)%string;
                  ("}" ++ nl)%string].
Proof.
  intros HL. split; [ now apply generate_sphere_lat_negative | ].
  eexists. split.
  - apply (serialize_fbx_ok (@nil F) [] 0 0 w); reflexivity.
  - reflexivity.
Qed.

End EmptyMesh.

Lemma grid_vertex_zero_radius (L N lat lon : Z) :
  grid_vertex 0%R L N lat lon = (0, 0, 0)%R.
Proof. rewrite grid_vertex_exact. repeat f_equal; ring. Qed.

(** X15.  In exact arithmetic, for [L >= 1] and [N >= 1] and the radius 0,
    every vertex of the mesh is the origin. *)
Theorem zero_radius_collapses_to_origin (L N : Z) :
  1 <= L -> 1 <= N ->
  exists vertices indices,
    generate_sphere 0%R L N = Ok (vertices, indices)
    /\ len (triples vertices) = (L + 1) * (N + 1)
    /\ forall v, In v (triples vertices) -> v = (0, 0, 0)%R.
Proof.
  intros HL HN.
  exists (grid_vertices 0%R L N), (spec_indices L N).
  split; [ apply generate_sphere_ok; lia | ]. split.
  - unfold len.
    rewrite (length_triples (Z.to_nat (N + 1) * Z.to_nat (L + 1))).
    + nia.
    + rewrite length_grid_vertices. lia.
  - intros v Hv. grid_point Hv lat lon. apply grid_vertex_zero_radius.
Qed.

(** ** The further properties at concrete inputs *)

Lemma triangles_are_cell_corners_witness :
  exists vertices indices,
    generate_sphere 1%R 16 32 = Ok (vertices, indices)
    /\ len (triples indices) = 2 * 16 * 32.
Proof.
  destruct (triangles_are_cell_corners 1%R 16 32) as
    (vertices & indices & Hgen & Hlen & _); [ lia | lia | ].
  exists vertices, indices. split; [ exact Hgen | exact Hlen ].
Defined.

Lemma triangles_have_distinct_indices_witness :
  exists vertices indices,
    generate_sphere 1%R 16 32 = Ok (vertices, indices)
    /\ forall a b c, In (a, b, c) (triples indices) ->
         a <> b /\ b <> c /\ a <> c.
Proof. apply (triangles_have_distinct_indices 1%R 16 32); lia. Defined.

Lemma every_vertex_is_indexed_witness :
  exists vertices indices,
    generate_sphere 1%R 16 32 = Ok (vertices, indices)
    /\ forall i, 0 <= i < len vertices / 3 -> In i indices.
Proof. apply (every_vertex_is_indexed 1%R 16 32); lia. Defined.

Lemma serialize_fbx_rewrites_file_witness :
  exists out,
    serialize_fbx [0; 1; 0]%R [0; 0; 0] fresh = (Ok tt, out)
    /\ fbx_file out = fbx_document [0; 1; 0]%R [0; 0; 0] 1 3.
Proof.
  destruct (serialize_fbx_rewrites_file [0; 1; 0]%R [0; 0; 0] 1 1 fresh)
    as (out & Hrun & Hfile & _); [ reflexivity | reflexivity | ].
  exists out. split; [ exact Hrun | exact Hfile ].
Defined.

Lemma generated_mesh_serializes_witness :
  (exists out,
      serialize_fbx (grid_vertices 1%R 16 32) (spec_indices 16 32) fresh
      = (Ok tt, out)
      /\ fbx_file out
         = fbx_document (grid_vertices 1%R 16 32) (spec_indices 16 32)
             (len (grid_vertices 1%R 16 32) / 3) (len (spec_indices 16 32)))
  /\ (exists out,
         print_mesh (grid_vertices 1%R 16 32) (spec_indices 16 32) fresh
         = (Ok tt, out)
         /\ fbx_file out = fbx_file fresh).
Proof.
  apply (generated_mesh_serializes 1%R 16 32).
  apply generate_sphere_ok; discriminate.
Defined.

Lemma partial_triple_truncates_file_witness :
  write_fbx [0; 1; 0; 5]%R [0; 0; 0] 1 3 fresh
  = (Raise IndexError,
     {| stdout := stdout fresh;
        fbx_file :=
          fbx_preamble
            ++ [("    Vertices: *" ++ str 1 ++ " {" ++ nl)%string]
            ++ vertex_lines [0; 1; 0; 5]%R |}).
Proof.
  apply (partial_triple_truncates_file [0; 1; 0; 5]%R [0; 0; 0] 1 3 1 1 fresh);
    [ reflexivity | lia ].
Defined.

Lemma print_mesh_blocks_witness :
  exists out,
    print_mesh [0; 1; 0]%R [0; 0; 0] fresh = (Ok tt, out)
    /\ fbx_file out = fbx_file fresh.
Proof.
  destruct (print_mesh_blocks [0; 1; 0]%R [0; 0; 0] 1 1 fresh)
    as (out & Hrun & Hfile & _); [ reflexivity | reflexivity | ].
  exists out. split; [ exact Hrun | exact Hfile ].
Defined.

Lemma negative_count_gives_empty_document_witness :
  generate_sphere 1%R (-1) 32 = Ok ([], []).
Proof.
  destruct (negative_count_gives_empty_document 1%R (-1) 32 fresh) as [H _];
    [ lia | exact H ].
Defined.

Lemma zero_radius_collapses_to_origin_witness :
  exists vertices indices,
    generate_sphere 0%R 16 32 = Ok (vertices, indices)
    /\ len (triples vertices) = (16 + 1) * (32 + 1)
    /\ forall v, In v (triples vertices) -> v = (0, 0, 0)%R.
Proof. apply (zero_radius_collapses_to_origin 16 32); lia. Defined.

